(** * Sparkplug B packets: outbound packet construction

    A shallow embedding of [sparkplub_b_packets/packets.py]: the metric
    model, the payload encoder [marshal_payload], the eight packet classes
    with their [topic] and [payload] methods, and the birth/death sequence
    number the node-level certificates share. *)

From Stdlib Require Import ZArith List String Ascii Bool Lia DecimalString.
Import ListNotations.

Local Open Scope string_scope.
Local Open Scope list_scope.
Local Open Scope Z_scope.

(** ** Python runtime values

    [Metric.value] and [MetricProperty.value] are attributes of mutable
    objects; the encoder inspects their runtime class with [isinstance].
    Only the classes the encoder can tell apart are modelled. A float is
    identified by its [repr], the shortest decimal string that reads back
    as the same float (["0.0"], ["2.5"], ["1e+16"]); no arithmetic is done
    on floats anywhere in the packet code. An object of any other class is
    identified by what [str] returns for it. *)

Inductive PyValue : Type :=
| PyBool (b : bool)
| PyInt (z : Z)
| PyFloat (repr : string)
| PyStr (s : string)
| PyNone
| PyObject (str_of : string).

Inductive PyClass : Type := Cbool | Cint | Cfloat.

(** [isinstance(v, cls)]. In Python [bool] is a subclass of [int], so a
    boolean is an instance of both. *)
Definition isinstance (v : PyValue) (cls : PyClass) : bool :=
  match cls, v with
  | Cbool, PyBool _ => true
  | Cint, PyBool _ => true
  | Cint, PyInt _ => true
  | Cfloat, PyFloat _ => true
  | _, _ => false
  end.

(** [str(v)]. *)
Definition py_str (v : PyValue) : string :=
  match v with
  | PyBool true => "True"
  | PyBool false => "False"
  | PyInt z => NilZero.string_of_int (Z.to_int z)
  | PyFloat repr => repr
  | PyStr s => s
  | PyNone => "None"
  | PyObject str_of => str_of
  end.

(** ** Exceptions and results

    [TypeError] and [KeyError] are the built-in exceptions the modelled
    statements can raise, [ValidationError] is pydantic's. [EncodingError]
    and [InvalidIdentifierError] are the two error kinds the design
    document names; no statement of [packets.py] raises either, they are
    here so that statements about them can be written down. *)

Inductive exn : Type :=
| TypeError
| KeyError (key : string)
| ValidationError
| EncodingError (alias : string)
| InvalidIdentifierError (identifier : string).

Inductive result (A : Type) : Type :=
| Ok (a : A)
| Raise (e : exn).

Arguments Ok {A} a.
Arguments Raise {A} e.

(** ** Metric model ([MetricProperty], [Metric])

    Names and tags are kept at their declared types. [value] is kept as a
    runtime value: attribute assignment after construction is not
    validated, and the encoder dispatches on the runtime class. *)

Record MetricProperty : Type := mkMetricProperty {
  prop_name : string;
  prop_data_type : Z;
  prop_value : PyValue
}.

Record Metric : Type := mkMetric {
  alias : string;
  alias_map : Z;
  data_type : Z;
  value : PyValue;
  properties : option (list MetricProperty)   (* [= None] by default *)
}.

(** [Dict[str, Metric]]: a dict keeps insertion order and has no two equal
    keys. The key need not equal the metric's own [alias] attribute. *)
Definition MetricMapping : Type := list (string * Metric).

Definition dict_keys (d : MetricMapping) : list string := map fst d.

Fixpoint dict_get (d : MetricMapping) (k : string) : option Metric :=
  match d with
  | [] => None
  | (k', m) :: d' => if String.eqb k k' then Some m else dict_get d' k
  end.

Fixpoint mem_string (k : string) (l : list string) : bool :=
  match l with
  | [] => false
  | k' :: l' => String.eqb k k' || mem_string k l'
  end.

(** Well-formedness of a dict: the keys are pairwise distinct. *)
Fixpoint distinct (l : list string) : bool :=
  match l with
  | [] => true
  | k :: l' => negb (mem_string k l') && distinct l'
  end.

Definition is_dict (d : MetricMapping) : bool := distinct (dict_keys d).

(** Truth value of an optional container: [None] and the empty container
    are both false. *)
Definition truthy {A : Type} (o : option (list A)) : bool :=
  match o with
  | Some (_ :: _) => true
  | _ => false
  end.

(** ** Construction of metrics

    [MetricProperty] and [Metric] are pydantic models: the constructor
    validates each argument against the field's annotation and raises
    [ValidationError] when it does not fit. [value] is annotated
    [Union[int, float, bool]]. The library may convert the raw argument
    before it checks it (a numeric string in its lax mode, say); [convert]
    stands for that conversion, the identity when the library converts
    nothing. Whatever the conversion is, the value stored by a successful
    construction is an instance of one of the three classes. *)

Definition fits_Union_int_float_bool (v : PyValue) : bool :=
  isinstance v Cint || isinstance v Cfloat || isinstance v Cbool.

Definition is_str (v : PyValue) : bool :=
  match v with
  | PyStr _ => true
  | _ => false
  end.

Section Construction.

Variable convert : PyValue -> PyValue.

Definition validate_value (v : PyValue) : result PyValue :=
  if fits_Union_int_float_bool (convert v) then Ok (convert v)
  else Raise ValidationError.

Definition MetricProperty_init (name_ : string) (data_type_ : Z)
    (value_ : PyValue) : result MetricProperty :=
  match validate_value value_ with
  | Ok v => Ok {| prop_name := name_; prop_data_type := data_type_;
                  prop_value := v |}
  | Raise e => Raise e
  end.

Definition Metric_init (alias_ : string) (alias_map_ : Z) (data_type_ : Z)
    (value_ : PyValue) (properties_ : option (list MetricProperty))
  : result Metric :=
  match validate_value value_ with
  | Ok v => Ok {| alias := alias_; alias_map := alias_map_;
                  data_type := data_type_; value := v;
                  properties := properties_ |}
  | Raise e => Raise e
  end.

End Construction.

(** ** Wire messages ([sparkplug_b_pb2])

    The generated protobuf module [core/sparkplug_b_pb2.py] is not among
    the sources; the message types follow the wire payload schema of the
    design document. *)

Module sparkplug_b_pb2.

(** Modelled from the spec: the value one-of of a metric or of a property
    value ([sparkplug_b_pb2] is not among the sources). A field records
    which member was assigned and the Python value assigned to it; the
    library's conversion to the wire width is not modelled. *)
Inductive TypedValue : Type :=
| unset
| bool_value (v : PyValue)
| int_value (v : PyValue)
| float_value (v : PyValue)
| string_value (s : string).

(** Modelled from the spec: a property value, [{type, one-of typed value}]
    ([sparkplug_b_pb2] is not among the sources). *)
Record PropertyValue : Type := mkPropertyValue {
  type_ : option Z;
  pvalue : TypedValue
}.

(** Modelled from the spec: the properties of a metric, two parallel
    ordered sequences [keys] and [values] ([sparkplug_b_pb2] is not among
    the sources). *)
Record PropertySet : Type := mkPropertySet {
  keys : list string;
  values : list PropertyValue
}.

(** Modelled from the spec: a metric on the wire, [{name, alias, datatype,
    one-of value, properties}] ([sparkplug_b_pb2] is not among the
    sources). *)
Record WireMetric : Type := mkWireMetric {
  name : option string;
  walias : option Z;
  datatype : option Z;
  mvalue : TypedValue;
  wproperties : PropertySet
}.

(** Modelled from the spec: the message type [Payload]
    ([sparkplug_b_pb2] is not among the sources), with the fields of the
    schema, [timestamp], [metrics] and [seq]; the birth/death sequence
    number a node certificate carries is kept as the message's own [bdSeq]
    field. An unset field is [None]. *)
Record Payload : Type := mkPayload {
  timestamp : option Z;
  bdSeq_field : option Z;
  metrics : list WireMetric;
  seq : option Z
}.

(** [Payload()]: every field unset. *)
Definition empty_Payload : Payload :=
  {| timestamp := None; bdSeq_field := None; metrics := []; seq := None |}.

Definition set_timestamp (t : option Z) (p : Payload) : Payload :=
  {| timestamp := t; bdSeq_field := bdSeq_field p;
     metrics := metrics p; seq := seq p |}.

Definition set_metrics (ms : list WireMetric) (p : Payload) : Payload :=
  {| timestamp := timestamp p; bdSeq_field := bdSeq_field p;
     metrics := ms; seq := seq p |}.

(** Modelled from the spec: the byte string [SerializeToString()] returns
    for a message. The encoding itself belongs to the protobuf library; it
    is deterministic and [ParseFromString] reads the message back, so a
    byte string is identified with the message it encodes. *)
Variant wire_bytes : Type := serialized (msg : Payload).

(** Modelled from the spec: decoding, the inverse of serialization. *)
Definition ParseFromString (b : wire_bytes) : Payload :=
  match b with serialized msg => msg end.

End sparkplug_b_pb2.
Import sparkplug_b_pb2.

(** ** The encoder's store

    [marshal_payload(payload, metrics)] receives two references: the
    message under construction and the caller's metric mapping. Both live
    in the store the encoder runs on; an exception leaves the store as it
    is at the raising statement. *)

Record Store : Type := mkStore {
  payload_obj : Payload;
  metrics_obj : option MetricMapping   (* the parameter defaults to [None] *)
}.

Definition Enc (A : Type) : Type := Store -> result A * Store.

Definition ret {A : Type} (a : A) : Enc A := fun st => (Ok a, st).

Definition bind {A B : Type} (c : Enc A) (k : A -> Enc B) : Enc B :=
  fun st =>
    match c st with
    | (Ok a, st') => k a st'
    | (Raise e, st') => (Raise e, st')
    end.

Notation "x <- c ;; k" := (bind c (fun x => k))
  (at level 61, c at next level, right associativity).
Notation "c ;;; k" := (bind c (fun _ => k))
  (at level 61, right associativity).

(** [for x in xs: body(x)] *)
Fixpoint for_each {X : Type} (xs : list X) (body : X -> Enc unit) : Enc unit :=
  match xs with
  | [] => ret tt
  | x :: xs' => body x ;;; for_each xs' body
  end.

(** *** Reads of the caller's mapping *)

(** [list(metrics)]: the keys in insertion order; [list(None)] is a
    [TypeError]. *)
Definition list_metrics : Enc (list string) :=
  fun st =>
    match metrics_obj st with
    | Some d => (Ok (dict_keys d), st)
    | None => (Raise TypeError, st)
    end.

(** [metrics[alias].attr] *)
Definition getattr_metric {A : Type} (alias : string) (attr : Metric -> A)
  : Enc A :=
  fun st =>
    match metrics_obj st with
    | Some d =>
        match dict_get d alias with
        | Some m => (Ok (attr m), st)
        | None => (Raise (KeyError alias), st)
        end
    | None => (Raise TypeError, st)
    end.

(** *** Writes to the message under construction

    A sub-message reference ([metric], [propertyValue]) is its position in
    the repeated field that holds it. *)

Fixpoint update_at {A : Type} (i : nat) (f : A -> A) (l : list A) : list A :=
  match l, i with
  | [], _ => []
  | x :: l', O => f x :: l'
  | x :: l', S i' => x :: update_at i' f l'
  end.

Definition modify_payload (f : Payload -> Payload) : Enc unit :=
  fun st =>
    (Ok tt, {| payload_obj := f (payload_obj st);
               metrics_obj := metrics_obj st |}).

Definition modify_metric (metric : nat) (f : WireMetric -> WireMetric)
  : Enc unit :=
  modify_payload (fun p => set_metrics (update_at metric f (metrics p)) p).

Definition set_wproperties (ps : PropertySet) (m : WireMetric) : WireMetric :=
  {| name := name m; walias := walias m; datatype := datatype m;
     mvalue := mvalue m; wproperties := ps |}.

Definition modify_property_value (metric propertyValue : nat)
    (f : PropertyValue -> PropertyValue) : Enc unit :=
  modify_metric metric (fun m =>
    set_wproperties
      {| keys := keys (wproperties m);
         values := update_at propertyValue f (values (wproperties m)) |} m).

(** [metric.properties.keys.extend(ks)] *)
Definition keys_extend (metric : nat) (ks : list string) : Enc unit :=
  modify_metric metric (fun m =>
    set_wproperties
      {| keys := keys (wproperties m) ++ ks;
         values := values (wproperties m) |} m).

(** [metric.properties.values.add()]: a new, unset property value at the
    end; the reference to it is returned. *)
Definition values_add (metric : nat) : Enc nat :=
  fun st =>
    let n := match nth_error (metrics (payload_obj st)) metric with
             | Some m => List.length (values (wproperties m))
             | None => O
             end in
    match modify_metric metric (fun m =>
            set_wproperties
              {| keys := keys (wproperties m);
                 values := (values (wproperties m)
                             ++ [{| type_ := None; pvalue := unset |}])%list
              |} m) st
    with
    | (_, st') => (Ok n, st')
    end.

(** [propertyValue.type = t] *)
Definition set_type (metric propertyValue : nat) (t : Z) : Enc unit :=
  modify_property_value metric propertyValue
    (fun pv => {| type_ := Some t; pvalue := pvalue pv |}).

(** [propertyValue.<field> = v] for a member of the value one-of *)
Definition set_value (metric propertyValue : nat) (tv : TypedValue)
  : Enc unit :=
  modify_property_value metric propertyValue
    (fun pv => {| type_ := type_ pv; pvalue := tv |}).

(** [payload.SerializeToString()] *)
Definition SerializeToString : Enc wire_bytes :=
  fun st => (Ok (serialized (payload_obj st)), st).

(** ** [sparkplug.addMetric] *)

(** The type-directed dispatch of the payload codec: boolean to the bool
    field, integer to the int field, float to the float field, anything
    else stringified to the string field, tested in this order. It is the
    chain of [isinstance] tests [marshal_payload] writes out for a property
    value. *)
Definition dispatch_value (v : PyValue) : TypedValue :=
  if isinstance v Cbool then bool_value v
  else if isinstance v Cint then int_value v
  else if isinstance v Cfloat then float_value v
  else string_value (py_str v).

(** Modelled from the spec: [addMetric] of [core/sparkplug_b.py], which is
    not among the sources. Per the payload codec's description the helper
    appends one metric to the container and writes the name, the numeric
    alias, the data-type tag and the value, the value by the type-directed
    dispatch. It returns the reference to the new metric. *)
Definition addMetric (name_ : string) (alias_ : Z) (type__ : Z) (v : PyValue)
  : Enc nat :=
  fun st =>
    let p := payload_obj st in
    let new := {| name := Some name_; walias := Some alias_;
                  datatype := Some type__; mvalue := dispatch_value v;
                  wproperties := {| keys := []; values := [] |} |} in
    (Ok (List.length (metrics p)),
     {| payload_obj := set_metrics (metrics p ++ [new]) p;
        metrics_obj := metrics_obj st |}).

(** ** [SparkplugBPacket.marshal_payload] *)

Definition marshal_property (metric : nat) (prop : MetricProperty) : Enc unit :=
  keys_extend metric [prop_name prop] ;;;
  propertyValue <- values_add metric ;;
  set_type metric propertyValue (prop_data_type prop) ;;;
  if isinstance (prop_value prop) Cbool then
    set_value metric propertyValue (bool_value (prop_value prop))
  else if isinstance (prop_value prop) Cint then
    set_value metric propertyValue (int_value (prop_value prop))
  else if isinstance (prop_value prop) Cfloat then
    set_value metric propertyValue (float_value (prop_value prop))
  else
    set_value metric propertyValue (string_value (py_str (prop_value prop))).

Definition iter_properties (ps : option (list MetricProperty))
  : list MetricProperty :=
  match ps with
  | Some l => l
  | None => []
  end.

Definition marshal_metric (alias_ : string) : Enc unit :=
  am <- getattr_metric alias_ alias_map ;;
  dt <- getattr_metric alias_ data_type ;;
  v <- getattr_metric alias_ value ;;
  metric <- addMetric alias_ am dt v ;;
  ps <- getattr_metric alias_ properties ;;
  if truthy ps then
    ps' <- getattr_metric alias_ properties ;;
    for_each (iter_properties ps') (marshal_property metric)
  else ret tt.

Definition marshal_payload : Enc wire_bytes :=
  aliases <- list_metrics ;;
  for_each aliases marshal_metric ;;;
  SerializeToString.

(** The call [marshal_payload(payload, metrics)] and what it returns. *)
Definition call_marshal_payload (payload : Payload)
    (metrics_ : option MetricMapping) : result wire_bytes :=
  fst (marshal_payload {| payload_obj := payload; metrics_obj := metrics_ |}).

(** ** [marshal_payload] over [addMetric]

    [addMetric] is imported from [core/sparkplug_b.py]; [marshal_payload]
    calls it once per key, with the message and four values read from the
    mapping, and consists of its own statements otherwise. Here the helper
    is a parameter [add]: any computation on the store that returns a
    metric reference or raises. The statements around the call are those
    of [marshal_metric] and [marshal_payload]. *)

Section OverAddMetric.

Variable add : string -> Z -> Z -> PyValue -> Enc nat.

Definition marshal_metric_with (alias_ : string) : Enc unit :=
  am <- getattr_metric alias_ alias_map ;;
  dt <- getattr_metric alias_ data_type ;;
  v <- getattr_metric alias_ value ;;
  metric <- add alias_ am dt v ;;
  ps <- getattr_metric alias_ properties ;;
  if truthy ps then
    ps' <- getattr_metric alias_ properties ;;
    for_each (iter_properties ps') (marshal_property metric)
  else ret tt.

Definition marshal_payload_with : Enc wire_bytes :=
  aliases <- list_metrics ;;
  for_each aliases marshal_metric_with ;;;
  SerializeToString.

End OverAddMetric.

(** ** Sequence context ([sparkplug])

    [core/sparkplug_b.py], which holds the birth/death sequence number and
    the three base-message helpers, is not among the sources. [packets.py]
    reads the counter as the module attribute [sparkplug.bdSeq] and calls
    the helpers without arguments: there is one counter for the process,
    not one per node. *)

Module sparkplug.

(** Modelled from the spec: the process-wide sequence context of
    [core/sparkplug_b.py] (not among the sources), the birth/death
    sequence number [bdSeq]. *)
Record SequenceContext : Type := mkSequenceContext { bdSeq : Z }.

(** Modelled from the spec: [getNodeBirthPayload] of [core/sparkplug_b.py]
    (not among the sources). It reads the current [bdSeq] into the message
    and does not advance it. *)
Definition getNodeBirthPayload (ctx : SequenceContext)
  : Payload * SequenceContext :=
  ({| timestamp := None; bdSeq_field := Some (bdSeq ctx);
      metrics := []; seq := None |}, ctx).

(** Modelled from the spec: [getNodeDeathPayload] of
    [core/sparkplug_b.py] (not among the sources). It reads the current
    [bdSeq] into the message, then advances it. *)
Definition getNodeDeathPayload (ctx : SequenceContext)
  : Payload * SequenceContext :=
  ({| timestamp := None; bdSeq_field := Some (bdSeq ctx);
      metrics := []; seq := None |},
   {| bdSeq := bdSeq ctx + 1 |}).

(** Modelled from the spec: [getDeviceBirthPayload] of
    [core/sparkplug_b.py] (not among the sources). A device-level message
    carries the timestamp only, no [bdSeq]; [now] is the millisecond clock
    reading taken by the call. *)
Definition getDeviceBirthPayload (now : Z) (ctx : SequenceContext)
  : Payload * SequenceContext :=
  ({| timestamp := Some now; bdSeq_field := None;
      metrics := []; seq := None |}, ctx).

End sparkplug.
Import sparkplug.

(** ** Packet classes

    One constructor per concrete class; the fields are the attributes
    [_group], [_node], [_device_id] (device-level birth, data and death
    only: [DCmdPacket] has none) and [_metrics]. *)

Inductive Packet : Type :=
| NBirth (group node : string) (metrics_ : MetricMapping)
| NData (group node : string) (metrics_ : MetricMapping)
| NCmd (group node : string) (metrics_ : MetricMapping)
| NDeath (group node : string) (metrics_ : MetricMapping)
| DBirth (group node device_id : string) (metrics_ : MetricMapping)
| DData (group node device_id : string) (metrics_ : MetricMapping)
| DCmd (group node : string) (metrics_ : MetricMapping)
| DDeath (group node device_id : string) (metrics_ : MetricMapping).

Inductive Kind : Type :=
| NBIRTH | NDEATH | DBIRTH | DDEATH | NDATA | DDATA | NCMD | DCMD.

Definition kind_of (self : Packet) : Kind :=
  match self with
  | NBirth _ _ _ => NBIRTH
  | NData _ _ _ => NDATA
  | NCmd _ _ _ => NCMD
  | NDeath _ _ _ => NDEATH
  | DBirth _ _ _ _ => DBIRTH
  | DData _ _ _ _ => DDATA
  | DCmd _ _ _ => DCMD
  | DDeath _ _ _ _ => DDEATH
  end.

(** [metrics if metrics else alternative] *)
Definition if_else (metrics_ : option MetricMapping)
    (alternative : MetricMapping) : MetricMapping :=
  match metrics_ with
  | Some d => if truthy metrics_ then d else alternative
  | None => alternative
  end.

(** The [__init__] methods. [NDeathPacket] inherits [NBirthPacket]'s,
    [DDataPacket] and [DDeathPacket] inherit [DBirthPacket]'s, whose
    [device_id] defaults to ["OGI"]. *)
Definition NBirthPacket (group node : string)
    (metrics_ : option MetricMapping) : Packet :=
  NBirth group node (if_else metrics_ []).

Definition NDataPacket (group node : string)
    (metrics_ : option MetricMapping) : Packet :=
  NData group node (if_else metrics_ []).

Definition NCmdPacket (group node : string)
    (metrics_ : option MetricMapping) : Packet :=
  NCmd group node (if_else metrics_ []).

Definition NDeathPacket (group node : string)
    (metrics_ : option MetricMapping) : Packet :=
  NDeath group node (if_else metrics_ []).

Definition device_id_or_default (device_id : option string) : string :=
  match device_id with
  | Some d => d
  | None => "OGI"
  end.

Definition DBirthPacket (group node : string) (device_id : option string)
    (metrics_ : option MetricMapping) : Packet :=
  DBirth group node (device_id_or_default device_id) (if_else metrics_ []).

Definition DDataPacket (group node : string) (device_id : option string)
    (metrics_ : option MetricMapping) : Packet :=
  DData group node (device_id_or_default device_id) (if_else metrics_ []).

Definition DCmdPacket (group node : string)
    (metrics_ : option MetricMapping) : Packet :=
  DCmd group node (if_else metrics_ []).

Definition DDeathPacket (group node : string) (device_id : option string)
    (metrics_ : option MetricMapping) : Packet :=
  DDeath group node (device_id_or_default device_id) (if_else metrics_ []).

(** The properties [group], [node] and [metrics]. *)
Definition group_of (self : Packet) : string :=
  match self with
  | NBirth g _ _ | NData g _ _ | NCmd g _ _ | NDeath g _ _
  | DBirth g _ _ _ | DData g _ _ _ | DCmd g _ _ | DDeath g _ _ _ => g
  end.

Definition node_of (self : Packet) : string :=
  match self with
  | NBirth _ n _ | NData _ n _ | NCmd _ n _ | NDeath _ n _
  | DBirth _ n _ _ | DData _ n _ _ | DCmd _ n _ | DDeath _ n _ _ => n
  end.

Definition stored_metrics (self : Packet) : MetricMapping :=
  match self with
  | NBirth _ _ m | NData _ _ m | NCmd _ _ m | NDeath _ _ m
  | DBirth _ _ _ m | DData _ _ _ m | DCmd _ _ m | DDeath _ _ _ m => m
  end.

(** The caller rebinding or mutating the stored mapping. *)
Definition with_metrics (self : Packet) (m : MetricMapping) : Packet :=
  match self with
  | NBirth g n _ => NBirth g n m
  | NData g n _ => NData g n m
  | NCmd g n _ => NCmd g n m
  | NDeath g n _ => NDeath g n m
  | DBirth g n d _ => DBirth g n d m
  | DData g n d _ => DData g n d m
  | DCmd g n _ => DCmd g n m
  | DDeath g n d _ => DDeath g n d m
  end.

(** ** [topic]

    Each class formats its own f-string; none of them inspects the
    identifiers. *)
Definition topic (self : Packet) : result string :=
  match self with
  | NBirth _group _node _ =>
      Ok ("spBv1.0/" ++ _group ++ "/NBIRTH/" ++ _node)%string
  | NData _group _node _ =>
      Ok ("spBv1.0/" ++ _group ++ "/NDATA/" ++ _node)%string
  | NCmd _group _node _ =>
      Ok ("spBv1.0/" ++ _group ++ "/NCMD/" ++ _node)%string
  | NDeath _group _node _ =>
      Ok ("spBv1.0/" ++ _group ++ "/NDEATH/" ++ _node)%string
  | DBirth _group _node _device_id _ =>
      Ok ("spBv1.0/" ++ _group ++ "/DBIRTH/" ++ _node ++ "/" ++ _device_id)%string
  | DData _group _node _device_id _ =>
      Ok ("spBv1.0/" ++ _group ++ "/DDATA/" ++ _node ++ "/" ++ _device_id)%string
  | DCmd _group _node _ =>
      Ok ("spBv1.0/" ++ _group ++ "/DCMD/" ++ _node)%string
  | DDeath _group _node _device_id _ =>
      Ok ("spBv1.0/" ++ _group ++ "/DDEATH/" ++ _node ++ "/" ++ _device_id)%string
  end.

(** ** [payload]

    [metrics_] is the optional override, [now] the millisecond clock
    reading [int(round(time.time() * 1000))] taken by the call, [ctx] the
    sequence context before the call; the sequence context after the call
    is returned with the result. *)

Definition NBirthPacket_payload (self : Packet)
    (metrics_ : option MetricMapping) (ctx : SequenceContext)
  : result wire_bytes * SequenceContext :=
  let (payload, ctx') := getNodeBirthPayload ctx in
  (call_marshal_payload payload
     (Some (if_else metrics_ (stored_metrics self))), ctx').

Definition NDataPacket_payload (self : Packet)
    (metrics_ : option MetricMapping) (now : Z) (ctx : SequenceContext)
  : result wire_bytes * SequenceContext :=
  let (payload, ctx') := getDeviceBirthPayload now ctx in
  (call_marshal_payload payload
     (Some (if_else metrics_ (stored_metrics self))), ctx').

Definition NCmdPacket_payload (self : Packet)
    (metrics_ : option MetricMapping) (now : Z) (ctx : SequenceContext)
  : result wire_bytes * SequenceContext :=
  let payload := empty_Payload in
  let payload := set_timestamp (Some now) payload in
  (call_marshal_payload payload
     (Some (if_else metrics_ (stored_metrics self))), ctx).

(** [bytearray(...)] copies the bytes; the content is the same. *)
Definition NDeathPacket_payload (self : Packet)
    (metrics_ : option MetricMapping) (ctx : SequenceContext)
  : result wire_bytes * SequenceContext :=
  let (deathPayload, ctx') := getNodeDeathPayload ctx in
  (Ok (serialized deathPayload), ctx').

Definition DBirthPacket_payload (self : Packet)
    (metrics_ : option MetricMapping) (now : Z) (ctx : SequenceContext)
  : result wire_bytes * SequenceContext :=
  let (payload, ctx') := getDeviceBirthPayload now ctx in
  (call_marshal_payload payload
     (Some (if_else metrics_ (stored_metrics self))), ctx').

Definition DDataPacket_payload (self : Packet)
    (metrics_ : option MetricMapping) (now : Z) (ctx : SequenceContext)
  : result wire_bytes * SequenceContext :=
  let (payload, ctx') := getDeviceBirthPayload now ctx in
  (call_marshal_payload payload
     (Some (if_else metrics_ (stored_metrics self))), ctx').

Definition DCmdPacket_payload (self : Packet)
    (metrics_ : option MetricMapping) (now : Z) (ctx : SequenceContext)
  : result wire_bytes * SequenceContext :=
  let payload := empty_Payload in
  let payload := set_timestamp (Some now) payload in
  (call_marshal_payload payload
     (Some (if_else metrics_ (stored_metrics self))), ctx).

Definition DDeathPacket_payload (self : Packet)
    (metrics_ : option MetricMapping) (now : Z) (ctx : SequenceContext)
  : result wire_bytes * SequenceContext :=
  let (payload, ctx') := getDeviceBirthPayload now ctx in
  (Ok (serialized payload), ctx').

(** Method resolution: the call [self.payload(metrics)]. *)
Definition payload (self : Packet) (metrics_ : option MetricMapping)
    (now : Z) (ctx : SequenceContext)
  : result wire_bytes * SequenceContext :=
  match kind_of self with
  | NBIRTH => NBirthPacket_payload self metrics_ ctx
  | NDATA => NDataPacket_payload self metrics_ now ctx
  | NCMD => NCmdPacket_payload self metrics_ now ctx
  | NDEATH => NDeathPacket_payload self metrics_ ctx
  | DBIRTH => DBirthPacket_payload self metrics_ now ctx
  | DDATA => DDataPacket_payload self metrics_ now ctx
  | DCMD => DCmdPacket_payload self metrics_ now ctx
  | DDEATH => DDeathPacket_payload self metrics_ now ctx
  end.

(** ** [payload] over the device-birth helper

    [NDataPacket.payload], [DBirthPacket.payload], [DDataPacket.payload]
    and [DDeathPacket.payload] start from what
    [sparkplug.getDeviceBirthPayload()] returns. Here the helper is a
    parameter: any function that, from the clock reading and whatever
    state [State] the helper module keeps, makes a message and leaves a
    state. [NCmdPacket.payload] and [DCmdPacket.payload] call no helper,
    so there is nothing to abstract in them. *)

Section OverDeviceBirthHelper.

Variable State : Type.
Variable helper : Z -> State -> Payload * State.

Definition NDataPacket_payload_with (self : Packet)
    (metrics_ : option MetricMapping) (now : Z) (ctx : State)
  : result wire_bytes * State :=
  let (payload, ctx') := helper now ctx in
  (call_marshal_payload payload
     (Some (if_else metrics_ (stored_metrics self))), ctx').

Definition DBirthPacket_payload_with (self : Packet)
    (metrics_ : option MetricMapping) (now : Z) (ctx : State)
  : result wire_bytes * State :=
  let (payload, ctx') := helper now ctx in
  (call_marshal_payload payload
     (Some (if_else metrics_ (stored_metrics self))), ctx').

Definition DDataPacket_payload_with (self : Packet)
    (metrics_ : option MetricMapping) (now : Z) (ctx : State)
  : result wire_bytes * State :=
  let (payload, ctx') := helper now ctx in
  (call_marshal_payload payload
     (Some (if_else metrics_ (stored_metrics self))), ctx').

Definition DDeathPacket_payload_with (self : Packet)
    (metrics_ : option MetricMapping) (now : Z) (ctx : State)
  : result wire_bytes * State :=
  let (payload, ctx') := helper now ctx in
  (Ok (serialized payload), ctx').

End OverDeviceBirthHelper.

Arguments NDataPacket_payload_with {State} helper self metrics_ now ctx.
Arguments DBirthPacket_payload_with {State} helper self metrics_ now ctx.
Arguments DDataPacket_payload_with {State} helper self metrics_ now ctx.
Arguments DDeathPacket_payload_with {State} helper self metrics_ now ctx.

(** * Specifications

    The predicates and the reference functions the properties are stated
    with. *)

(** ** The encoder only reads the caller's mapping *)

(** A computation that leaves the caller's mapping as it found it. *)
Definition reads_only {A : Type} (c : Enc A) : Prop :=
  forall st, metrics_obj (snd (c st)) = metrics_obj st.

(** ** What the encoder writes

    The message [marshal_payload] builds, as a function of the mapping:
    one wire metric per entry, in insertion order, each with one property
    value per property. *)

Definition encode_property (prop : MetricProperty) : PropertyValue :=
  {| type_ := Some (prop_data_type prop);
     pvalue := dispatch_value (prop_value prop) |}.

Definition encode_properties (ps : option (list MetricProperty))
  : PropertySet :=
  {| keys := map prop_name (if truthy ps then iter_properties ps else []);
     values := map encode_property
                 (if truthy ps then iter_properties ps else []) |}.

Definition encode_metric (entry : string * Metric) : WireMetric :=
  let (k, m) := entry in
  {| name := Some k; walias := Some (alias_map m);
     datatype := Some (data_type m); mvalue := dispatch_value (value m);
     wproperties := encode_properties (properties m) |}.

Definition append_property (prop : MetricProperty) (w : WireMetric)
  : WireMetric :=
  set_wproperties
    {| keys := keys (wproperties w) ++ [prop_name prop];
       values := values (wproperties w) ++ [encode_property prop] |} w.

(** The wire metric written for key [k] of [d]. *)
Definition encode_at (d : MetricMapping) (k : string) : list WireMetric :=
  match dict_get d k with
  | Some m => [encode_metric (k, m)]
  | None => []
  end.

(** ** Topics *)

(** The topic templates of the packet taxonomy, written as the design
    document's table gives them: [/]-separated segments, the device
    segment only for device birth, data and death. *)
Definition kind_name (k : Kind) : string :=
  match k with
  | NBIRTH => "NBIRTH" | NDEATH => "NDEATH"
  | DBIRTH => "DBIRTH" | DDEATH => "DDEATH"
  | NDATA => "NDATA" | DDATA => "DDATA"
  | NCMD => "NCMD" | DCMD => "DCMD"
  end.

Definition topic_template (k : Kind) (group node device : string) : string :=
  match k with
  | DBIRTH | DDATA | DDEATH =>
      String.concat "/" ["spBv1.0"; group; kind_name k; node; device]
  | NBIRTH | NDEATH | NDATA | NCMD | DCMD =>
      String.concat "/" ["spBv1.0"; group; kind_name k; node]
  end.

(** The device segment a packet has. *)
Definition device_segment (self : Packet) : list string :=
  match self with
  | DBirth _ _ d _ | DData _ _ d _ | DDeath _ _ d _ => [d]
  | NBirth _ _ _ | NData _ _ _ | NCmd _ _ _ | NDeath _ _ _ | DCmd _ _ _ => []
  end.

Definition is_InvalidIdentifierError {A : Type} (r : result A) : bool :=
  match r with
  | Raise (InvalidIdentifierError _) => true
  | _ => false
  end.

Definition is_EncodingError {A : Type} (r : result A) : bool :=
  match r with
  | Raise (EncodingError _) => true
  | _ => false
  end.

(** A computation that raises no [EncodingError], whatever the store. *)
Definition no_EncodingError {A : Type} (c : Enc A) : Prop :=
  forall st, is_EncodingError (fst (c st)) = false.

(** An identifier the design document calls invalid: empty, or with the
    topic delimiter in it. *)
Fixpoint has_slash (s : string) : bool :=
  match s with
  | EmptyString => false
  | String c s' => Ascii.eqb c "/"%char || has_slash s'
  end.

Definition invalid_identifier (s : string) : bool :=
  String.eqb s "" || has_slash s.

(** ** Values the dispatch cannot classify *)

(** The four variants the data model lists. *)
Definition classifiable (v : PyValue) : bool :=
  isinstance v Cbool || isinstance v Cint || isinstance v Cfloat
  || match v with PyStr _ => true | _ => false end.

(** The value went to the string field. *)
Definition is_string_value (tv : TypedValue) : bool :=
  match tv with
  | string_value _ => true
  | _ => false
  end.

(** ** Base messages and overrides *)

(** The message a packet's [payload] method starts from, and the sequence
    context it leaves. *)
Definition base_message (self : Packet) (now : Z) (ctx : SequenceContext)
  : Payload * SequenceContext :=
  match kind_of self with
  | NBIRTH => getNodeBirthPayload ctx
  | NDEATH => getNodeDeathPayload ctx
  | NCMD | DCMD => (set_timestamp (Some now) empty_Payload, ctx)
  | NDATA | DBIRTH | DDATA | DDEATH => getDeviceBirthPayload now ctx
  end.

Definition is_death (k : Kind) : bool :=
  match k with
  | NDEATH | DDEATH => true
  | _ => false
  end.

(** The message with the wire metrics of [d] appended. *)
Definition with_encoded (d : MetricMapping) (base : Payload) : Payload :=
  set_metrics (metrics base ++ map encode_metric d) base.

(** ** The base message of NDATA *)

(** A device-birth helper that numbers its messages: besides the timestamp
    it writes the schema's [seq] field, from a counter of its own that it
    advances. With it a message that came from the helper can be told from
    one that was built in place. *)
Definition numbering_helper (now : Z) (next : Z) : Payload * Z :=
  ({| timestamp := Some now; bdSeq_field := None; metrics := [];
      seq := Some next |}, next + 1).

(** ** Repeated calls *)

Definition embedded_bdSeq (r : result wire_bytes) : option Z :=
  match r with
  | Ok b => bdSeq_field (ParseFromString b)
  | Raise _ => None
  end.

Definition is_Ok {A : Type} (r : result A) : bool :=
  match r with
  | Ok _ => true
  | Raise _ => false
  end.

(** ** Birth and death sequence numbers *)

(** What a caller can do with a packet. *)
Inductive Call : Type :=
| call_payload (self : Packet) (metrics_ : option MetricMapping) (now : Z)
| call_topic (self : Packet).

Definition after_call (ctx : SequenceContext) (c : Call) : SequenceContext :=
  match c with
  | call_payload self metrics_ now => snd (payload self metrics_ now ctx)
  | call_topic _ => ctx
  end.

Definition after_calls (cs : list Call) (ctx : SequenceContext)
  : SequenceContext :=
  fold_left after_call cs ctx.

Definition is_ndeath_payload (c : Call) : bool :=
  match c with
  | call_payload self _ _ =>
      match kind_of self with NDEATH => true | _ => false end
  | call_topic _ => false
  end.

(** An NDEATH payload constructed for the given node. *)
Definition is_ndeath_payload_for (node : string) (c : Call) : bool :=
  match c with
  | call_payload self _ _ =>
      match kind_of self with
      | NDEATH => String.eqb (node_of self) node
      | _ => false
      end
  | call_topic _ => false
  end.

(** ** Conversion before validation *)

(** A conversion that reads a string of decimal digits, with or without a
    minus sign, as the integer it spells, and leaves every other argument
    as it is: what a validation in lax mode does to such a string before
    it checks the annotation. *)
Definition lax_convert (v : PyValue) : PyValue :=
  match v with
  | PyStr s =>
      match NilZero.int_of_string s with
      | Some i => PyInt (Z.of_int i)
      | None => v
      end
  | _ => v
  end.

(** ** Attribute updates and views of a mapping *)

(** The same update applied to every metric of a mapping; the keys and
    their order stay. *)
Definition map_values (h : Metric -> Metric) (d : MetricMapping)
  : MetricMapping :=
  map (fun e => (fst e, h (snd e))) d.

(** [metric.alias = a] *)
Definition set_alias (a : string) (m : Metric) : Metric :=
  {| alias := a; alias_map := alias_map m; data_type := data_type m;
     value := value m; properties := properties m |}.

(** [metric.properties = ps] *)
Definition set_properties (ps : option (list MetricProperty)) (m : Metric)
  : Metric :=
  {| alias := alias m; alias_map := alias_map m; data_type := data_type m;
     value := value m; properties := ps |}.

(** [prop.value = v] *)
Definition set_prop_value (v : PyValue) (prop : MetricProperty)
  : MetricProperty :=
  {| prop_name := prop_name prop; prop_data_type := prop_data_type prop;
     prop_value := v |}.

(** [prop.data_type = t] *)
Definition set_prop_data_type (t : Z) (prop : MetricProperty)
  : MetricProperty :=
  {| prop_name := prop_name prop; prop_data_type := t;
     prop_value := prop_value prop |}.

(** The same update applied to every property of a metric. *)
Definition map_properties (hp : MetricProperty -> MetricProperty)
    (m : Metric) : Metric :=
  set_properties (option_map (map hp) (properties m)) m.

(** An empty property list replaced by [None]. *)
Definition drop_empty_properties (m : Metric) : Metric :=
  match properties m with
  | Some [] => set_properties None m
  | _ => m
  end.

(** A value that is neither bool nor int nor float replaced by the string
    [str] gives for it. *)
Definition stringified (v : PyValue) : PyValue :=
  if fits_Union_int_float_bool v then v else PyStr (py_str v).

(** A wire metric without the type tags of its property values. *)
Definition untagged (w : WireMetric)
  : option string * option Z * option Z * TypedValue * list string
    * list TypedValue :=
  (name w, walias w, datatype w, mvalue w, keys (wproperties w),
   map pvalue (values (wproperties w))).

(** The wire metrics of a returned payload. *)
Definition metrics_of (r : result wire_bytes) : list WireMetric :=
  match r with
  | Ok b => metrics (ParseFromString b)
  | Raise _ => []
  end.

(** ** Identifiers *)

(** The same packet under other identifiers. *)
Definition set_identifiers (g n d : string) (self : Packet) : Packet :=
  match self with
  | NBirth _ _ m => NBirth g n m
  | NData _ _ m => NData g n m
  | NCmd _ _ m => NCmd g n m
  | NDeath _ _ m => NDeath g n m
  | DBirth _ _ _ m => DBirth g n d m
  | DData _ _ _ m => DData g n d m
  | DCmd _ _ m => DCmd g n m
  | DDeath _ _ _ m => DDeath g n d m
  end.

(** A topic cut at every [/]. *)
Fixpoint split_slash (s : string) : list string :=
  match s with
  | EmptyString => [EmptyString]
  | String c s' =>
      if Ascii.eqb c "/"%char then EmptyString :: split_slash s'
      else match split_slash s' with
           | [] => [String c EmptyString]
           | seg :: rest => String c seg :: rest
           end
  end.

(** The identifiers of a packet are free of the delimiter. *)
Definition slash_free (self : Packet) : bool :=
  negb (has_slash (group_of self)) && negb (has_slash (node_of self))
  && forallb (fun d => negb (has_slash d)) (device_segment self).

(** * The example builder ([tests/example_builder.py])

    The three metric catalogs are built by functions under
    [functools.cache]: each builds its dict once and returns the same
    object ever after, so every packet made from a catalog holds a
    reference to one shared dict of shared [Metric] objects, and the data
    packets are filled in by assigning to those objects. The store of the
    builder is the three cached dicts. *)

(** [AliasMap], the numeric aliases of the example. *)
Module AliasMap.
Definition Next_Server : Z := 0.
Definition Rebirth : Z := 1.
Definition Reboot : Z := 2.
Definition CPU_Load : Z := 3.
Definition Memory_Avail : Z := 4.
Definition Node_Metric2 : Z := 5.
Definition Node_Metric3 : Z := 6.
Definition OGI_Setpoint : Z := 7.
Definition OGI_Flow : Z := 8.
Definition OGI_Count : Z := 9.
Definition OGI_Uptime : Z := 10.
Definition OGI_Confidence : Z := 11.
End AliasMap.

(** What the example takes from modules that are not among the sources:
    the tag constants of [MetricDataType] and [ParameterDataType]
    ([core/sparkplug_b.py]) it uses, and the conversion pydantic applies
    to a [value] argument before it checks it. *)
Record Environment : Type := mkEnvironment {
  MetricDataType_Boolean : Z;
  MetricDataType_Float : Z;
  MetricDataType_UInt64 : Z;
  ParameterDataType_UInt8 : Z;
  ParameterDataType_Float : Z;
  ParameterDataType_UInt32 : Z;
  pydantic_convert : PyValue -> PyValue
}.

(** The validation accepts what fits the annotation: a bool, int or float
    argument is stored (possibly converted) as a bool, int or float. *)
Definition accepts_fitting (env : Environment) : Prop :=
  forall v, fits_Union_int_float_bool v = true ->
            fits_Union_int_float_bool (pydantic_convert env v) = true.

Definition and_then {A B : Type} (r : result A) (k : A -> result B)
  : result B :=
  match r with
  | Ok a => k a
  | Raise e => Raise e
  end.

(** [d[k] = m]: an existing key keeps its place, a new one goes last. *)
Fixpoint dict_set (d : MetricMapping) (k : string) (m : Metric)
  : MetricMapping :=
  match d with
  | [] => [(k, m)]
  | (k', m') :: d' =>
      if String.eqb k k' then (k', m) :: d' else (k', m') :: dict_set d' k m
  end.

(** [metric.value = v] *)
Definition set_metric_value (v : PyValue) (m : Metric) : Metric :=
  {| alias := alias m; alias_map := alias_map m; data_type := data_type m;
     value := v; properties := properties m |}.

(** The bodies of the three catalog functions. *)
Definition build_nvidia_rebirth (env : Environment) : result MetricMapping :=
  let metrics_ := [] in
  and_then
    (Metric_init (pydantic_convert env) "Node Control/Rebirth"
       AliasMap.Rebirth (MetricDataType_Boolean env) (PyBool true) None)
    (fun m => Ok (dict_set metrics_ "Node Control/Rebirth" m)).

Definition build_nvidia_metrics (env : Environment) : result MetricMapping :=
  let metrics_ := [] in
  and_then
    (Metric_init (pydantic_convert env) "Node Control/Next Server"
       AliasMap.Next_Server (MetricDataType_Boolean env) (PyBool false) None)
    (fun m =>
  let metrics_ := dict_set metrics_ "Node Control/Next Server" m in
  and_then
    (Metric_init (pydantic_convert env) "Node Control/Rebirth"
       AliasMap.Rebirth (MetricDataType_Boolean env) (PyBool false) None)
    (fun m =>
  let metrics_ := dict_set metrics_ "Node Control/Rebirth" m in
  and_then
    (Metric_init (pydantic_convert env) "Node Control/Reboot"
       AliasMap.Reboot (MetricDataType_Boolean env) (PyBool false) None)
    (fun m =>
  let metrics_ := dict_set metrics_ "Node Control/Reboot" m in
  and_then
    (Metric_init (pydantic_convert env) "CPU/Load"
       AliasMap.CPU_Load (MetricDataType_Float env) (PyFloat "0.0") None)
    (fun m =>
  let metrics_ := dict_set metrics_ "CPU/Load" m in
  and_then
    (Metric_init (pydantic_convert env) "Memory/Avail"
       AliasMap.Memory_Avail (MetricDataType_UInt64 env) (PyInt 0) None)
    (fun m =>
  Ok (dict_set metrics_ "Memory/Avail" m)))))).

Definition build_ogi_metrics (env : Environment) : result MetricMapping :=
  let metrics_ := [] in
  and_then
    (MetricProperty_init (pydantic_convert env) "Setpoint"
       (ParameterDataType_UInt8 env) (PyInt 0))
    (fun setpoint =>
  and_then
    (MetricProperty_init (pydantic_convert env) "Quality"
       (ParameterDataType_Float env) (PyFloat "0.0"))
    (fun quality =>
  and_then
    (MetricProperty_init (pydantic_convert env) "Count"
       (ParameterDataType_UInt32 env) (PyInt 0))
    (fun count =>
  and_then
    (Metric_init (pydantic_convert env) "OGI/Flow"
       AliasMap.OGI_Flow (MetricDataType_Float env) (PyFloat "0.0")
       (Some [setpoint; quality; count]))
    (fun m =>
  let metrics_ := dict_set metrics_ "OGI/Flow" m in
  and_then
    (Metric_init (pydantic_convert env) "OGI/Uptime"
       AliasMap.OGI_Uptime (MetricDataType_Float env) (PyFloat "0.0") None)
    (fun m =>
  Ok (dict_set metrics_ "OGI/Uptime" m)))))).

(** The three cached functions; a returned dict object is named by the
    function that owns it. *)
Inductive Catalog : Type :=
| rebirth_catalog
| node_catalog
| device_catalog.

Record Caches : Type := mkCaches {
  nvidia_rebirth_cache : option MetricMapping;
  nvidia_metrics_cache : option MetricMapping;
  ogi_metrics_cache : option MetricMapping
}.

(** A process in which no catalog function has been called yet. *)
Definition no_caches : Caches :=
  {| nvidia_rebirth_cache := None; nvidia_metrics_cache := None;
     ogi_metrics_cache := None |}.

Definition cached (c : Catalog) (w : Caches) : option MetricMapping :=
  match c with
  | rebirth_catalog => nvidia_rebirth_cache w
  | node_catalog => nvidia_metrics_cache w
  | device_catalog => ogi_metrics_cache w
  end.

Definition store_catalog (c : Catalog) (d : MetricMapping) (w : Caches)
  : Caches :=
  match c with
  | rebirth_catalog =>
      {| nvidia_rebirth_cache := Some d;
         nvidia_metrics_cache := nvidia_metrics_cache w;
         ogi_metrics_cache := ogi_metrics_cache w |}
  | node_catalog =>
      {| nvidia_rebirth_cache := nvidia_rebirth_cache w;
         nvidia_metrics_cache := Some d;
         ogi_metrics_cache := ogi_metrics_cache w |}
  | device_catalog =>
      {| nvidia_rebirth_cache := nvidia_rebirth_cache w;
         nvidia_metrics_cache := nvidia_metrics_cache w;
         ogi_metrics_cache := Some d |}
  end.

Definition build_catalog (env : Environment) (c : Catalog)
  : result MetricMapping :=
  match c with
  | rebirth_catalog => build_nvidia_rebirth env
  | node_catalog => build_nvidia_metrics env
  | device_catalog => build_ogi_metrics env
  end.

(** [@cache] on a function without arguments: the body runs on the first
    call only; a call that raises caches nothing. *)
Definition cache_call (env : Environment) (c : Catalog) (w : Caches)
  : result Catalog * Caches :=
  match cached c w with
  | Some _ => (Ok c, w)
  | None =>
      match build_catalog env c with
      | Ok d => (Ok c, store_catalog c d w)
      | Raise e => (Raise e, w)
      end
  end.

Definition get_nvidia_rebirth (env : Environment) :=
  cache_call env rebirth_catalog.

Definition get_nvidia_metrics (env : Environment) :=
  cache_call env node_catalog.

Definition get_ogi_metrics (env : Environment) :=
  cache_call env device_catalog.

(** The [_metrics] attribute of a packet made by the builder: a reference
    to a cached dict, or a dict of the packet's own. *)
Inductive MetricsRef : Type :=
| shared (c : Catalog)
| owned (d : MetricMapping).

(** A packet whose [_metrics] is held by reference; [shell] is the packet
    class applied to the identifiers. *)
Record BuiltPacket : Type := mkBuiltPacket {
  shell : MetricMapping -> Packet;
  metrics_ref : MetricsRef
}.

(** The dict a reference points to, as it is now. *)
Definition look (r : MetricsRef) (w : Caches) : MetricMapping :=
  match r with
  | shared c => match cached c w with Some d => d | None => [] end
  | owned d => d
  end.

(** The packet as it is now. *)
Definition resolve (packet : BuiltPacket) (w : Caches) : Packet :=
  shell packet (look (metrics_ref packet) w).

(** [self._metrics = metrics if metrics else {}] for the dict a catalog
    function returned. *)
Definition keep_or_new (c : Catalog) (w : Caches) : MetricsRef :=
  if truthy (cached c w) then shared c else owned [].

(** A packet class of the example: its [__init__] calls the catalog
    function and hands the dict to the base class. *)
Definition from_catalog (env : Environment) (c : Catalog)
    (shell_ : MetricMapping -> Packet) (w : Caches)
  : result BuiltPacket * Caches :=
  match cache_call env c w with
  | (Ok c', w') =>
      (Ok {| shell := shell_; metrics_ref := keep_or_new c' w' |}, w')
  | (Raise e, w') => (Raise e, w')
  end.

Definition NvidiaNBirthPacket (env : Environment) (group node : string) :=
  from_catalog env node_catalog (NBirth group node).

Definition NvidiaNDataPacket (env : Environment) (group node : string) :=
  from_catalog env node_catalog (NData group node).

Definition NvidiaNCmdPacket (env : Environment) (group node : string) :=
  from_catalog env rebirth_catalog (NCmd group node).

Definition OGIDBirthPacket (env : Environment) (group node : string)
    (device_id : option string) :=
  from_catalog env device_catalog
    (DBirth group node (device_id_or_default device_id)).

Definition OGIDDataPacket (env : Environment) (group node : string)
    (device_id : option string) :=
  from_catalog env device_catalog
    (DData group node (device_id_or_default device_id)).

(** Writing a dict back through the reference it was read from. *)
Definition put (packet : BuiltPacket) (w : Caches) (d : MetricMapping)
  : BuiltPacket * Caches :=
  match metrics_ref packet with
  | shared c => (packet, store_catalog c d w)
  | owned _ => ({| shell := shell packet; metrics_ref := owned d |}, w)
  end.

(** [packet.metrics[k].value = v]; a missing key is a [KeyError]. *)
Definition assign_value (k : string) (v : PyValue)
    (st : BuiltPacket * Caches) : result unit * (BuiltPacket * Caches) :=
  let d := look (metrics_ref (fst st)) (snd st) in
  match dict_get d k with
  | Some m => (Ok tt, put (fst st) (snd st) (dict_set d k (set_metric_value v m)))
  | None => (Raise (KeyError k), st)
  end.

(** The body of the loop of [OGIDevice.data_packet]. *)
Definition assign_by_name (setpoint quality count : PyValue)
    (prop : MetricProperty) : MetricProperty :=
  if String.eqb (prop_name prop) "Setpoint" then set_prop_value setpoint prop
  else if String.eqb (prop_name prop) "Quality" then
    set_prop_value quality prop
  else if String.eqb (prop_name prop) "Count" then set_prop_value count prop
  else prop.

(** [for prop in packet.metrics[k].properties: ...]; a missing key is a
    [KeyError], iterating over [None] a [TypeError]. *)
Definition assign_properties (k : string)
    (body : MetricProperty -> MetricProperty)
    (st : BuiltPacket * Caches) : result unit * (BuiltPacket * Caches) :=
  let d := look (metrics_ref (fst st)) (snd st) in
  match dict_get d k with
  | Some m =>
      match properties m with
      | Some ps =>
          (Ok tt, put (fst st) (snd st)
                    (dict_set d k (set_properties (Some (map body ps)) m)))
      | None => (Raise TypeError, st)
      end
  | None => (Raise (KeyError k), st)
  end.

(** [EdgeComputer]: the attributes [_group] and [_node] are those of its
    base class [EdgeNode], which is not among the sources. *)
Record EdgeComputer : Type := mkEdgeComputer {
  ec_group : string;
  ec_node : string
}.

Definition EdgeComputer_birth_certificate (env : Environment)
    (self : EdgeComputer) (w : Caches) : result BuiltPacket * Caches :=
  NvidiaNBirthPacket env (ec_group self) (ec_node self) w.

Definition EdgeComputer_data_packet (env : Environment)
    (self : EdgeComputer) (cpu_load memory_avail : PyValue) (w : Caches)
  : result BuiltPacket * Caches :=
  match NvidiaNDataPacket env (ec_group self) (ec_node self) w with
  | (Raise e, w1) => (Raise e, w1)
  | (Ok packet, w1) =>
      match assign_value "CPU/Load" cpu_load (packet, w1) with
      | (Raise e, st2) => (Raise e, snd st2)
      | (Ok _, st2) =>
          match assign_value "Memory/Avail" memory_avail st2 with
          | (Raise e, st3) => (Raise e, snd st3)
          | (Ok _, st3) => (Ok (fst st3), snd st3)
          end
      end
  end.

(** [OGIDevice]: [group], [node] and [device] are properties of its base
    class [EdgeDevice], which is not among the sources. *)
Record OGIDevice : Type := mkOGIDevice {
  og_group : string;
  og_node : string;
  og_device : string
}.

Definition OGIDevice_birth_certificate (env : Environment)
    (self : OGIDevice) (w : Caches) : result BuiltPacket * Caches :=
  OGIDBirthPacket env (og_group self) (og_node self) (Some (og_device self)) w.

Definition OGIDevice_data_packet (env : Environment) (self : OGIDevice)
    (setpoint flow quality count uptime : PyValue) (w : Caches)
  : result BuiltPacket * Caches :=
  match OGIDDataPacket env (og_group self) (og_node self)
          (Some (og_device self)) w with
  | (Raise e, w1) => (Raise e, w1)
  | (Ok packet, w1) =>
      match assign_value "OGI/Flow" flow (packet, w1) with
      | (Raise e, st2) => (Raise e, snd st2)
      | (Ok _, st2) =>
          match assign_properties "OGI/Flow"
                  (assign_by_name setpoint quality count) st2 with
          | (Raise e, st3) => (Raise e, snd st3)
          | (Ok _, st3) =>
              match assign_value "OGI/Uptime" uptime st3 with
              | (Raise e, st4) => (Raise e, snd st4)
              | (Ok _, st4) => (Ok (fst st4), snd st4)
              end
          end
      end
  end.

(** The values of a dict, key by key. *)
Definition values_of (d : MetricMapping) : list (string * PyValue) :=
  map (fun e => (fst e, value (snd e))) d.

(** The node catalog and the device catalog as first built, with the
    values as validation stores them. *)
Definition nvidia_metrics_catalog (env : Environment) : MetricMapping :=
  [("Node Control/Next Server",
    {| alias := "Node Control/Next Server";
       alias_map := AliasMap.Next_Server;
       data_type := MetricDataType_Boolean env;
       value := pydantic_convert env (PyBool false); properties := None |});
   ("Node Control/Rebirth",
    {| alias := "Node Control/Rebirth"; alias_map := AliasMap.Rebirth;
       data_type := MetricDataType_Boolean env;
       value := pydantic_convert env (PyBool false); properties := None |});
   ("Node Control/Reboot",
    {| alias := "Node Control/Reboot"; alias_map := AliasMap.Reboot;
       data_type := MetricDataType_Boolean env;
       value := pydantic_convert env (PyBool false); properties := None |});
   ("CPU/Load",
    {| alias := "CPU/Load"; alias_map := AliasMap.CPU_Load;
       data_type := MetricDataType_Float env;
       value := pydantic_convert env (PyFloat "0.0"); properties := None |});
   ("Memory/Avail",
    {| alias := "Memory/Avail"; alias_map := AliasMap.Memory_Avail;
       data_type := MetricDataType_UInt64 env;
       value := pydantic_convert env (PyInt 0); properties := None |})].

Definition ogi_metrics_catalog (env : Environment) : MetricMapping :=
  [("OGI/Flow",
    {| alias := "OGI/Flow"; alias_map := AliasMap.OGI_Flow;
       data_type := MetricDataType_Float env;
       value := pydantic_convert env (PyFloat "0.0");
       properties :=
         Some [{| prop_name := "Setpoint";
                  prop_data_type := ParameterDataType_UInt8 env;
                  prop_value := pydantic_convert env (PyInt 0) |};
               {| prop_name := "Quality";
                  prop_data_type := ParameterDataType_Float env;
                  prop_value := pydantic_convert env (PyFloat "0.0") |};
               {| prop_name := "Count";
                  prop_data_type := ParameterDataType_UInt32 env;
                  prop_value := pydantic_convert env (PyInt 0) |}] |});
   ("OGI/Uptime",
    {| alias := "OGI/Uptime"; alias_map := AliasMap.OGI_Uptime;
       data_type := MetricDataType_Float env;
       value := pydantic_convert env (PyFloat "0.0"); properties := None |})].

(** An environment for running the example: the tag numbers of the
    Sparkplug B specification, and a validation that stores a fitting
    value as it is. *)
Definition example_environment : Environment :=
  {| MetricDataType_Boolean := 11; MetricDataType_Float := 9;
     MetricDataType_UInt64 := 8; ParameterDataType_UInt8 := 5;
     ParameterDataType_Float := 9; ParameterDataType_UInt32 := 7;
     pydantic_convert := fun v => v |}.

(** * Properties *)

(** ** The encoder only reads the caller's mapping *)

Lemma reads_only_ret {A : Type} (a : A) : reads_only (ret a).
Proof. intro st. reflexivity. Qed.

Lemma reads_only_bind {A B : Type} (c : Enc A) (k : A -> Enc B) :
  reads_only c -> (forall a, reads_only (k a)) -> reads_only (bind c k).
Proof.
  intros Hc Hk st. unfold bind.
  specialize (Hc st). destruct (c st) as [[a | e] st']; simpl in *.
  - rewrite Hk. exact Hc.
  - exact Hc.
Qed.

Lemma reads_only_for_each {X : Type} (xs : list X) (body : X -> Enc unit) :
  (forall x, reads_only (body x)) -> reads_only (for_each xs body).
Proof.
  intro Hbody. induction xs as [| x xs IH]; simpl.
  - apply reads_only_ret.
  - apply reads_only_bind; [apply Hbody | intros _; exact IH].
Qed.

Lemma reads_only_list_metrics : reads_only list_metrics.
Proof.
  intro st. unfold list_metrics.
  destruct (metrics_obj st) eqn:E; simpl; congruence.
Qed.

Lemma reads_only_getattr_metric {A : Type} (k : string) (attr : Metric -> A) :
  reads_only (getattr_metric k attr).
Proof.
  intro st. unfold getattr_metric.
  destruct (metrics_obj st) as [d |] eqn:E; [destruct (dict_get d k) |];
    simpl; congruence.
Qed.

Lemma reads_only_modify_payload (f : Payload -> Payload) :
  reads_only (modify_payload f).
Proof. intro st. reflexivity. Qed.

Lemma reads_only_values_add (metric : nat) : reads_only (values_add metric).
Proof. intro st. reflexivity. Qed.

Lemma reads_only_addMetric (n : string) (a t : Z) (v : PyValue) :
  reads_only (addMetric n a t v).
Proof. intro st. reflexivity. Qed.

Lemma reads_only_SerializeToString : reads_only SerializeToString.
Proof. intro st. reflexivity. Qed.

Create HintDb reads_only.
#[local] Hint Resolve reads_only_ret reads_only_list_metrics
  reads_only_getattr_metric reads_only_modify_payload reads_only_values_add
  reads_only_addMetric reads_only_SerializeToString : reads_only.

Ltac reads_only_steps :=
  repeat first
    [ apply reads_only_bind; [| intro]
    | apply reads_only_for_each; intro
    | match goal with |- reads_only (if ?b then _ else _) => destruct b end
    | solve [auto with reads_only]
    | solve [unfold keys_extend, set_type, set_value, modify_property_value,
               modify_metric; auto with reads_only] ].

Lemma reads_only_marshal_property (metric : nat) (prop : MetricProperty) :
  reads_only (marshal_property metric prop).
Proof. unfold marshal_property. reads_only_steps. Qed.

Lemma reads_only_marshal_metric (k : string) : reads_only (marshal_metric k).
Proof.
  unfold marshal_metric. reads_only_steps.
Qed.

Lemma reads_only_marshal_payload : reads_only marshal_payload.
Proof.
  unfold marshal_payload. reads_only_steps.
Qed.

(** ** What the encoder writes *)

Lemma update_at_middle {A : Type} (f : A -> A) (pre post : list A) (x : A) :
  update_at (List.length pre) f (pre ++ x :: post) = pre ++ f x :: post.
Proof. induction pre as [| y pre IH]; simpl; [| rewrite IH]; reflexivity. Qed.

Lemma nth_error_middle {A : Type} (pre post : list A) (x : A) :
  nth_error (pre ++ x :: post) (List.length pre) = Some x.
Proof. induction pre as [| y pre IH]; simpl; [reflexivity | exact IH]. Qed.

Lemma update_at_last {A : Type} (f : A -> A) (pre : list A) (x : A) :
  update_at (List.length pre) f (pre ++ [x]) = pre ++ [f x].
Proof. apply update_at_middle. Qed.

Lemma marshal_property_run (pre post : list WireMetric) (w : WireMetric)
    (prop : MetricProperty) (p : Payload) (mo : option MetricMapping) :
  metrics p = pre ++ w :: post ->
  marshal_property (List.length pre) prop
      {| payload_obj := p; metrics_obj := mo |}
  = (Ok tt, {| payload_obj :=
                 set_metrics (pre ++ append_property prop w :: post) p;
               metrics_obj := mo |}).
Proof.
  intro Hp.
  assert (Hsame : dispatch_value (prop_value prop)
                  = if isinstance (prop_value prop) Cbool
                    then bool_value (prop_value prop)
                    else if isinstance (prop_value prop) Cint
                    then int_value (prop_value prop)
                    else if isinstance (prop_value prop) Cfloat
                    then float_value (prop_value prop)
                    else string_value (py_str (prop_value prop)))
    by reflexivity.
  unfold marshal_property, bind, keys_extend, values_add, set_type,
    modify_property_value, modify_metric, modify_payload.
  cbn [payload_obj metrics_obj metrics set_metrics].
  rewrite Hp, !update_at_middle, nth_error_middle.
  cbn [set_wproperties wproperties values keys].
  unfold append_property, encode_property. rewrite Hsame.
  destruct (isinstance (prop_value prop) Cbool);
    [| destruct (isinstance (prop_value prop) Cint);
       [| destruct (isinstance (prop_value prop) Cfloat)]];
    unfold set_value, modify_property_value, modify_metric, modify_payload;
    cbn [payload_obj metrics_obj metrics set_metrics];
    rewrite !update_at_middle;
    cbn [set_wproperties wproperties values keys];
    rewrite !update_at_last;
    reflexivity.
Qed.

Lemma marshal_properties_run (ps : list MetricProperty) :
  forall (pre post : list WireMetric) (w : WireMetric) (p : Payload)
         (mo : option MetricMapping),
    metrics p = pre ++ w :: post ->
    for_each ps (marshal_property (List.length pre))
        {| payload_obj := p; metrics_obj := mo |}
    = (Ok tt, {| payload_obj :=
                   set_metrics
                     (pre ++ fold_left (fun w' prop => append_property prop w')
                                       ps w :: post) p;
                 metrics_obj := mo |}).
Proof.
  induction ps as [| prop ps IH]; intros pre post w p mo Hp.
  - simpl. unfold ret. rewrite <- Hp. destruct p; reflexivity.
  - cbn [for_each fold_left]. unfold bind at 1.
    rewrite (marshal_property_run pre post w prop p mo Hp).
    rewrite (IH pre post (append_property prop w)) by reflexivity.
    reflexivity.
Qed.

Lemma fold_append_property (ps : list MetricProperty) :
  forall w : WireMetric,
    fold_left (fun w' prop => append_property prop w') ps w
    = set_wproperties
        {| keys := keys (wproperties w) ++ map prop_name ps;
           values := values (wproperties w) ++ map encode_property ps |} w.
Proof.
  induction ps as [| prop ps IH]; intro w; simpl.
  - rewrite !app_nil_r. destruct w as [n a d v [ks vs]]; reflexivity.
  - rewrite IH. unfold append_property, set_wproperties; simpl.
    rewrite <- !app_assoc. reflexivity.
Qed.

Lemma bind_ok {A B : Type} (c : Enc A) (k : A -> Enc B) (st st' : Store)
    (a : A) :
  c st = (Ok a, st') -> bind c k st = k a st'.
Proof. intro H. unfold bind. rewrite H. reflexivity. Qed.

Lemma getattr_metric_run {A : Type} (k : string) (attr : Metric -> A)
    (m : Metric) (d : MetricMapping) (p : Payload) :
  dict_get d k = Some m ->
  getattr_metric k attr {| payload_obj := p; metrics_obj := Some d |}
  = (Ok (attr m), {| payload_obj := p; metrics_obj := Some d |}).
Proof. intro H. unfold getattr_metric. cbn [metrics_obj]. rewrite H. reflexivity. Qed.

Lemma marshal_metric_run (k : string) (m : Metric) (d : MetricMapping)
    (p : Payload) :
  dict_get d k = Some m ->
  marshal_metric k {| payload_obj := p; metrics_obj := Some d |}
  = (Ok tt, {| payload_obj :=
                 set_metrics (metrics p ++ [encode_metric (k, m)]) p;
               metrics_obj := Some d |}).
Proof.
  intro Hk. unfold marshal_metric.
  do 3 (erewrite bind_ok by (apply getattr_metric_run; exact Hk)).
  erewrite bind_ok by (unfold addMetric; cbn [payload_obj metrics_obj];
                       reflexivity).
  erewrite bind_ok by (apply getattr_metric_run; exact Hk).
  unfold encode_metric, encode_properties.
  destruct (truthy (properties m)) eqn:Ht.
  - erewrite bind_ok by (apply getattr_metric_run; exact Hk).
    erewrite (marshal_properties_run _ (metrics p) []) by reflexivity.
    rewrite fold_append_property. reflexivity.
  - reflexivity.
Qed.

Lemma marshal_metrics_run (d : MetricMapping) (ks : list string) :
  forall p : Payload,
    (forall k, In k ks -> dict_get d k <> None) ->
    for_each ks marshal_metric {| payload_obj := p; metrics_obj := Some d |}
    = (Ok tt, {| payload_obj :=
                   set_metrics (metrics p ++ flat_map (encode_at d) ks) p;
                 metrics_obj := Some d |}).
Proof.
  induction ks as [| k ks IH]; intros p Hks.
  - simpl. unfold ret. rewrite app_nil_r. destruct p; reflexivity.
  - cbn [for_each flat_map]. unfold bind at 1.
    destruct (dict_get d k) as [m |] eqn:Hk;
      [| exfalso; apply (Hks k); [left; reflexivity | exact Hk]].
    rewrite (marshal_metric_run k m d p Hk).
    rewrite IH by (intros k' Hk'; apply Hks; right; exact Hk').
    unfold encode_at at 2. rewrite Hk.
    cbn [metrics set_metrics]. rewrite <- app_assoc. reflexivity.
Qed.

Lemma dict_get_key (d : MetricMapping) (k : string) :
  In k (dict_keys d) -> dict_get d k <> None.
Proof.
  induction d as [| [k' m] d IH]; simpl; [tauto |].
  intros [-> | Hin].
  - rewrite String.eqb_refl. discriminate.
  - destruct (String.eqb k k'); [discriminate | exact (IH Hin)].
Qed.

Lemma mem_string_In (k : string) (l : list string) :
  mem_string k l = true <-> In k l.
Proof.
  induction l as [| k' l IH]; simpl.
  - split; [discriminate | tauto].
  - rewrite orb_true_iff, IH, String.eqb_eq. split; intros [H | H]; auto.
Qed.

Lemma distinct_middle (l0 l1 : list string) (k : string) :
  distinct (l0 ++ k :: l1) = true -> mem_string k l0 = false.
Proof.
  induction l0 as [| k0 l0 IH]; cbn [app distinct mem_string]; intro H.
  - reflexivity.
  - apply andb_true_iff in H. destruct H as [Hk0 H].
    rewrite (IH H), orb_false_r.
    destruct (String.eqb k k0) eqn:E; [| reflexivity].
    apply String.eqb_eq in E. subst k0. apply negb_true_iff in Hk0.
    assert (Hin : In k (l0 ++ k :: l1))
      by (rewrite in_app_iff; right; left; reflexivity).
    apply mem_string_In in Hin. congruence.
Qed.

Lemma dict_get_middle (d0 d1 : MetricMapping) (k : string) (m : Metric) :
  mem_string k (dict_keys d0) = false ->
  dict_get (d0 ++ (k, m) :: d1) k = Some m.
Proof.
  induction d0 as [| [k0 m0] d0 IH]; cbn [app dict_get dict_keys map mem_string fst].
  - intros _. rewrite String.eqb_refl. reflexivity.
  - intro H. apply orb_false_iff in H. destruct H as [E H].
    rewrite E. exact (IH H).
Qed.

Lemma encode_at_suffix (d1 : MetricMapping) :
  forall d0 : MetricMapping,
    distinct (dict_keys (d0 ++ d1)) = true ->
    flat_map (encode_at (d0 ++ d1)) (dict_keys d1) = map encode_metric d1.
Proof.
  induction d1 as [| [k m] d1 IH]; intros d0 Hd; [reflexivity |].
  cbn [dict_keys map flat_map fst]. fold (dict_keys d1).
  assert (Hget : dict_get (d0 ++ (k, m) :: d1) k = Some m).
  { apply dict_get_middle. unfold dict_keys in Hd. rewrite map_app in Hd.
    exact (distinct_middle _ _ _ Hd). }
  unfold encode_at at 1. rewrite Hget. cbn [app]. f_equal.
  specialize (IH (d0 ++ [(k, m)])).
  rewrite <- app_assoc in IH. exact (IH Hd).
Qed.

Lemma encode_at_entries (d : MetricMapping) :
  is_dict d = true ->
  flat_map (encode_at d) (dict_keys d) = map encode_metric d.
Proof. intro Hd. exact (encode_at_suffix d [] Hd). Qed.

Lemma marshal_payload_run (d : MetricMapping) (p : Payload) :
  marshal_payload {| payload_obj := p; metrics_obj := Some d |}
  = (Ok (serialized
           (set_metrics
              (metrics p ++ flat_map (encode_at d) (dict_keys d)) p)),
     {| payload_obj :=
          set_metrics (metrics p ++ flat_map (encode_at d) (dict_keys d)) p;
        metrics_obj := Some d |}).
Proof.
  unfold marshal_payload, bind, list_metrics.
  cbn [metrics_obj].
  rewrite (marshal_metrics_run d (dict_keys d) p (dict_get_key d)).
  reflexivity.
Qed.

Lemma call_marshal_payload_entries (d : MetricMapping) (p : Payload) :
  is_dict d = true ->
  call_marshal_payload p (Some d)
  = Ok (serialized (set_metrics (metrics p ++ map encode_metric d) p)).
Proof.
  intro Hd. unfold call_marshal_payload.
  rewrite marshal_payload_run, (encode_at_entries d Hd). reflexivity.
Qed.

(** The property list of the device example, [Setpoint], [Quality],
    [Count]: the keys and the values are written in this order, each value
    to the field of its class. *)
Example ogi_flow_payload :
  call_marshal_payload (fst (getDeviceBirthPayload 1000 {| bdSeq := 0 |}))
    (Some [("OGI/Flow",
            {| alias := "OGI/Flow"; alias_map := 8; data_type := 9;
               value := PyFloat "0.0";
               properties :=
                 Some [{| prop_name := "Setpoint"; prop_data_type := 5;
                          prop_value := PyInt 0 |};
                       {| prop_name := "Quality"; prop_data_type := 9;
                          prop_value := PyFloat "0.0" |};
                       {| prop_name := "Count"; prop_data_type := 7;
                          prop_value := PyInt 0 |}] |});
           ("OGI/Uptime",
            {| alias := "OGI/Uptime"; alias_map := 10; data_type := 9;
               value := PyFloat "0.0"; properties := None |})])
  = Ok (serialized
          {| timestamp := Some 1000; bdSeq_field := None;
             metrics :=
               [{| name := Some "OGI/Flow"; walias := Some 8;
                   datatype := Some 9; mvalue := float_value (PyFloat "0.0");
                   wproperties :=
                     {| keys := ["Setpoint"; "Quality"; "Count"];
                        values :=
                          [{| type_ := Some 5; pvalue := int_value (PyInt 0) |};
                           {| type_ := Some 9;
                              pvalue := float_value (PyFloat "0.0") |};
                           {| type_ := Some 7;
                              pvalue := int_value (PyInt 0) |}] |} |};
                {| name := Some "OGI/Uptime"; walias := Some 10;
                   datatype := Some 9; mvalue := float_value (PyFloat "0.0");
                   wproperties := {| keys := []; values := [] |} |}];
             seq := None |}).
Proof. reflexivity. Qed.

(** C9. [marshal_payload] leaves the metric mapping it is given unchanged:
    whatever the message under construction and the mapping are, and
    whether the call returns or raises, the mapping in the store after the
    call equals the mapping before it, so every key, every metric's
    [alias], [alias_map], [data_type], [value] and every property (name,
    type, value, order) is as it was; in particular the keys are in the
    same order and each lookup by key returns the same metric as before. *)
Theorem marshal_payload_reads_only :
  forall (payload_ : Payload) (metrics_ : option MetricMapping) (k : string),
    let st := {| payload_obj := payload_; metrics_obj := metrics_ |} in
    let after := metrics_obj (snd (marshal_payload st)) in
    after = metrics_
    /\ option_map dict_keys after = option_map dict_keys metrics_
    /\ option_map (fun d => dict_get d k) after
       = option_map (fun d => dict_get d k) metrics_.
Proof.
  intros payload_ metrics_ k st after.
  assert (H : after = metrics_) by apply (reads_only_marshal_payload st).
  rewrite H. repeat split.
Qed.

(** ** Dispatch precedence *)

(** The property branch read back from the message: the call returns, the
    metric the reference points to keeps its place and its own fields, and
    it has one more key and one more value. *)
Lemma marshal_property_appends (pre post : list WireMetric) (w : WireMetric)
    (prop : MetricProperty) (p0 : Payload) (mo : option MetricMapping) :
  let st' :=
    marshal_property (List.length pre) prop
      {| payload_obj := set_metrics (pre ++ w :: post) p0;
         metrics_obj := mo |} in
  fst st' = Ok tt
  /\ metrics (payload_obj (snd st')) = pre ++ append_property prop w :: post.
Proof.
  intro st'. subst st'.
  rewrite (marshal_property_run pre post w prop) by reflexivity.
  split; reflexivity.
Qed.

Lemma isinstance_chain (v : PyValue) :
  dispatch_value v
  = if isinstance v Cbool then bool_value v
    else if isinstance v Cint then int_value v
    else if isinstance v Cfloat then float_value v
    else string_value (py_str v).
Proof. reflexivity. Qed.


(** ** Topics *)

Lemma topic_segments (self : Packet) :
  topic self
  = Ok (String.concat "/"
          ("spBv1.0" :: group_of self :: kind_name (kind_of self)
             :: node_of self :: device_segment self)).
Proof. destruct self; reflexivity. Qed.

(** C4. For all group, node and device strings (so in particular for the
    non-empty ones without [/]) the topic of each of the eight packet
    kinds is the template of the table: NBIRTH, NDEATH, NDATA and NCMD
    are [spBv1.0/{group}/{KIND}/{node}]; DBIRTH, DDATA and DDEATH are
    [spBv1.0/{group}/{KIND}/{node}/{device}]; DCMD is
    [spBv1.0/{group}/DCMD/{node}] with no device segment. The example of
    the document is included. *)
Theorem topic_matches_template :
  forall (group node device : string) (ms : option MetricMapping),
    topic (NBirthPacket group node ms)
      = Ok (topic_template NBIRTH group node device)
    /\ topic (NDeathPacket group node ms)
      = Ok (topic_template NDEATH group node device)
    /\ topic (NDataPacket group node ms)
      = Ok (topic_template NDATA group node device)
    /\ topic (NCmdPacket group node ms)
      = Ok (topic_template NCMD group node device)
    /\ topic (DBirthPacket group node (Some device) ms)
      = Ok (topic_template DBIRTH group node device)
    /\ topic (DDataPacket group node (Some device) ms)
      = Ok (topic_template DDATA group node device)
    /\ topic (DDeathPacket group node (Some device) ms)
      = Ok (topic_template DDEATH group node device)
    /\ topic (DCmdPacket group node ms)
      = Ok ("spBv1.0/" ++ group ++ "/DCMD/" ++ node)%string
    /\ topic_template DCMD group node device
      = ("spBv1.0/" ++ group ++ "/DCMD/" ++ node)%string
    /\ topic_template NBIRTH group node device
      = ("spBv1.0/" ++ group ++ "/NBIRTH/" ++ node)%string
    /\ topic_template DBIRTH group node device
      = ("spBv1.0/" ++ group ++ "/DBIRTH/" ++ node ++ "/" ++ device)%string
    /\ topic (DBirthPacket "site.A" "gw1" (Some "sensor1") ms)
      = Ok "spBv1.0/site.A/DBIRTH/gw1/sensor1".
Proof.
  intros group node device ms.
  unfold NBirthPacket, NDeathPacket, NDataPacket, NCmdPacket, DBirthPacket,
    DDataPacket, DDeathPacket, DCmdPacket.
  rewrite !topic_segments. repeat split.
Qed.

(** C8, as the code has it. [topic] validates nothing: for every packet,
    whatever its group, node and device strings are (empty ones and ones
    with [/] included), it returns the formatted string with the
    identifiers substituted verbatim, and never raises
    [InvalidIdentifierError]. *)
Theorem topic_never_raises :
  forall self : Packet,
    topic self
    = Ok (String.concat "/"
            ("spBv1.0" :: group_of self :: kind_name (kind_of self)
               :: node_of self :: device_segment self))
    /\ is_InvalidIdentifierError (topic self) = false.
Proof.
  intro self. rewrite topic_segments. split; reflexivity.
Qed.

(** C8 fails as stated: with an empty group and a node that contains the
    delimiter, the topic is returned, malformed, and nothing is raised. *)
Lemma topic_of_invalid_identifiers :
  invalid_identifier "" = true
  /\ invalid_identifier "a/b" = true
  /\ topic (NBirthPacket "" "a/b" None) = Ok "spBv1.0//NBIRTH/a/b"
  /\ is_InvalidIdentifierError (topic (NBirthPacket "" "a/b" None)) = false.
Proof. repeat split. Qed.

(** ** Values the dispatch cannot classify *)

Lemma marshal_payload_with_addMetric :
  marshal_payload_with addMetric = marshal_payload.
Proof. reflexivity. Qed.

Lemma no_EncodingError_ret {A : Type} (a : A) : no_EncodingError (ret a).
Proof. intro st. reflexivity. Qed.

Lemma no_EncodingError_bind {A B : Type} (c : Enc A) (k : A -> Enc B) :
  no_EncodingError c -> (forall a, no_EncodingError (k a)) ->
  no_EncodingError (bind c k).
Proof.
  intros Hc Hk st. unfold bind.
  specialize (Hc st). destruct (c st) as [[a | e] st']; simpl in *.
  - apply Hk.
  - exact Hc.
Qed.

Lemma no_EncodingError_for_each {X : Type} (xs : list X)
    (body : X -> Enc unit) :
  (forall x, no_EncodingError (body x)) -> no_EncodingError (for_each xs body).
Proof.
  intro Hbody. induction xs as [| x xs IH]; simpl.
  - apply no_EncodingError_ret.
  - apply no_EncodingError_bind; [apply Hbody | intros _; exact IH].
Qed.

Lemma no_EncodingError_list_metrics : no_EncodingError list_metrics.
Proof.
  intro st. unfold list_metrics. destruct (metrics_obj st); reflexivity.
Qed.

Lemma no_EncodingError_getattr_metric {A : Type} (k : string)
    (attr : Metric -> A) :
  no_EncodingError (getattr_metric k attr).
Proof.
  intro st. unfold getattr_metric.
  destruct (metrics_obj st) as [d |]; [destruct (dict_get d k) |];
    reflexivity.
Qed.

Lemma no_EncodingError_modify_payload (f : Payload -> Payload) :
  no_EncodingError (modify_payload f).
Proof. intro st. reflexivity. Qed.

Lemma no_EncodingError_values_add (metric : nat) :
  no_EncodingError (values_add metric).
Proof. intro st. reflexivity. Qed.

Lemma no_EncodingError_SerializeToString : no_EncodingError SerializeToString.
Proof. intro st. reflexivity. Qed.

Lemma no_EncodingError_marshal_property (metric : nat)
    (prop : MetricProperty) :
  no_EncodingError (marshal_property metric prop).
Proof.
  unfold marshal_property.
  apply no_EncodingError_bind; [apply no_EncodingError_modify_payload |].
  intros _.
  apply no_EncodingError_bind; [apply no_EncodingError_values_add |].
  intro propertyValue.
  apply no_EncodingError_bind; [apply no_EncodingError_modify_payload |].
  intros _.
  destruct (isinstance (prop_value prop) Cbool);
    [| destruct (isinstance (prop_value prop) Cint);
       [| destruct (isinstance (prop_value prop) Cfloat)]];
    apply no_EncodingError_modify_payload.
Qed.

Lemma no_EncodingError_marshal_payload_with
    (add : string -> Z -> Z -> PyValue -> Enc nat) :
  (forall n a t v, no_EncodingError (add n a t v)) ->
  no_EncodingError (marshal_payload_with add).
Proof.
  intro Hadd. unfold marshal_payload_with.
  apply no_EncodingError_bind; [apply no_EncodingError_list_metrics |].
  intro aliases.
  apply no_EncodingError_bind; [| intros _; apply no_EncodingError_SerializeToString].
  apply no_EncodingError_for_each. intro k. unfold marshal_metric_with.
  do 3 (apply no_EncodingError_bind;
        [apply no_EncodingError_getattr_metric | intro]).
  apply no_EncodingError_bind; [apply Hadd | intro metric].
  apply no_EncodingError_bind; [apply no_EncodingError_getattr_metric |].
  intro ps. destruct (truthy ps); [| apply no_EncodingError_ret].
  apply no_EncodingError_bind; [apply no_EncodingError_getattr_metric |].
  intro ps'. apply no_EncodingError_for_each. intro prop.
  apply no_EncodingError_marshal_property.
Qed.

(** C2, as the code has it. [marshal_payload] raises no [EncodingError] of
    its own, with a mapping or without one: whatever [addMetric] is, if
    [addMetric] raises none, the call raises none. A property value that is
    neither bool nor int nor float, a string or a value of any other class,
    is not an error: the property branch returns, and the metric it was
    given has the property's name as its last key and, as its last value,
    a property value with the property's tag and [str] of the value in the
    string field; the value is neither dropped nor replaced by a number.
    What becomes of a metric value is [addMetric]'s business. *)
Theorem marshal_payload_has_no_EncodingError
    (add : string -> Z -> Z -> PyValue -> Enc nat)
    (Hadd : forall n a t v st, is_EncodingError (fst (add n a t v st)) = false) :
  (forall st, is_EncodingError (fst (marshal_payload_with add st)) = false)
  /\ forall (prop : MetricProperty) (pre post : list WireMetric)
            (w : WireMetric) (p0 : Payload) (mo : option MetricMapping),
       isinstance (prop_value prop) Cbool = false ->
       isinstance (prop_value prop) Cint = false ->
       isinstance (prop_value prop) Cfloat = false ->
       let st' :=
         marshal_property (List.length pre) prop
           {| payload_obj := set_metrics (pre ++ w :: post) p0;
              metrics_obj := mo |} in
       fst st' = Ok tt
       /\ exists w' : WireMetric,
            metrics (payload_obj (snd st')) = pre ++ w' :: post
            /\ keys (wproperties w')
               = keys (wproperties w) ++ [prop_name prop]
            /\ values (wproperties w')
               = values (wproperties w)
                 ++ [{| type_ := Some (prop_data_type prop);
                        pvalue := string_value (py_str (prop_value prop)) |}].
Proof.
  split.
  - apply no_EncodingError_marshal_payload_with. exact Hadd.
  - intros prop pre post w p0 mo Hb Hi Hf st'.
    destruct (marshal_property_appends pre post w prop p0 mo) as [Hok Hms].
    split; [exact Hok |].
    exists (append_property prop w). split; [exact Hms |].
    unfold append_property, encode_property.
    cbn [set_wproperties wproperties keys values].
    rewrite isinstance_chain, Hb, Hi, Hf. split; reflexivity.
Qed.

Lemma marshal_payload_has_no_EncodingError_witness :
  let d := [("Flow",
             {| alias := "Flow"; alias_map := 8; data_type := 9;
                value := PyObject "<object>";
                properties :=
                  Some [{| prop_name := "Quality"; prop_data_type := 12;
                           prop_value := PyNone |}] |})] in
  (forall n a t v st, is_EncodingError (fst (addMetric n a t v st)) = false)
  /\ is_EncodingError
       (fst (marshal_payload_with addMetric
               {| payload_obj := empty_Payload; metrics_obj := Some d |}))
     = false.
Proof.
  intro d.
  assert (Hadd : forall n a t v st,
             is_EncodingError (fst (addMetric n a t v st)) = false)
    by reflexivity.
  split; [exact Hadd |].
  exact (proj1 (marshal_payload_has_no_EncodingError addMetric Hadd) _).
Defined.

(** C2 fails as stated: a property whose value is [None], which is none of
    bool, int, float or string, is encoded, as the string ["None"]; the
    call returns the payload and raises nothing. *)
Lemma unclassifiable_property_is_stringified :
  classifiable PyNone = false
  /\ call_marshal_payload empty_Payload
       (Some [("Flow",
               {| alias := "Flow"; alias_map := 8; data_type := 9;
                  value := PyBool true;
                  properties :=
                    Some [{| prop_name := "Quality"; prop_data_type := 12;
                             prop_value := PyNone |}] |})])
     = Ok (serialized
             {| timestamp := None; bdSeq_field := None;
                metrics :=
                  [{| name := Some "Flow"; walias := Some 8;
                      datatype := Some 9; mvalue := bool_value (PyBool true);
                      wproperties :=
                        {| keys := ["Quality"];
                           values := [{| type_ := Some 12;
                                         pvalue := string_value "None" |}] |}
                   |}];
                seq := None |})
  /\ is_EncodingError
       (call_marshal_payload empty_Payload
          (Some [("Flow",
                  {| alias := "Flow"; alias_map := 8; data_type := 9;
                     value := PyBool true;
                     properties :=
                       Some [{| prop_name := "Quality"; prop_data_type := 12;
                                prop_value := PyNone |}] |})]))
     = false.
Proof. repeat split. Qed.

(** ** Overrides *)

Lemma payload_unfold (self : Packet) (ov : option MetricMapping) (now : Z)
    (ctx : SequenceContext) :
  payload self ov now ctx
  = (if is_death (kind_of self)
     then Ok (serialized (fst (base_message self now ctx)))
     else call_marshal_payload (fst (base_message self now ctx))
            (Some (if_else ov (stored_metrics self))),
     snd (base_message self now ctx)).
Proof. destruct self; reflexivity. Qed.

(** C3, as the code has it. For every packet kind other than NDEATH and
    DDEATH, a non-empty override mapping is encoded in place of the stored
    metrics: the payload is the base message followed by exactly the
    override's metrics, whatever is stored on the packet. With no override,
    or with an empty one, the stored metrics are encoded. NDEATH and DDEATH
    serialize the base message alone, whatever the override and the stored
    metrics are. *)
Theorem payload_override
    (self : Packet) (ov ov' stored' : MetricMapping) (e : string * Metric)
    (now : Z) (ctx : SequenceContext)
    (Hov : is_dict (e :: ov) = true)
    (Hstored : is_dict (stored_metrics self) = true) :
  let base := fst (base_message self now ctx) in
  let ctx' := snd (base_message self now ctx) in
  if is_death (kind_of self) then
    payload self (Some ov') now ctx = (Ok (serialized base), ctx')
    /\ payload self None now ctx = (Ok (serialized base), ctx')
    /\ payload (with_metrics self stored') (Some ov') now ctx
       = (Ok (serialized base), ctx')
  else
    payload self (Some (e :: ov)) now ctx
      = (Ok (serialized (with_encoded (e :: ov) base)), ctx')
    /\ payload (with_metrics self stored') (Some (e :: ov)) now ctx
      = payload self (Some (e :: ov)) now ctx
    /\ payload self None now ctx
      = (Ok (serialized (with_encoded (stored_metrics self) base)), ctx')
    /\ payload self (Some []) now ctx = payload self None now ctx.
Proof.
  intros base ctx'. subst base ctx'.
  assert (Hbase : forall m, base_message (with_metrics self m) now ctx
                            = base_message self now ctx)
    by (intro m; destruct self; reflexivity).
  assert (Hkind : forall m, kind_of (with_metrics self m) = kind_of self)
    by (intro m; destruct self; reflexivity).
  rewrite !payload_unfold, !Hbase, !Hkind.
  destruct (is_death (kind_of self)).
  - repeat split.
  - cbn [if_else truthy].
    rewrite !(call_marshal_payload_entries _ _ Hov),
            !(call_marshal_payload_entries _ _ Hstored).
    repeat split.
Qed.

Lemma payload_override_witness :
  let load := {| alias := "CPU/Load"; alias_map := 3; data_type := 9;
                 value := PyFloat "0.5"; properties := None |} in
  let avail := {| alias := "Memory/Avail"; alias_map := 4; data_type := 8;
                  value := PyInt 2048; properties := None |} in
  let self :=
    NDataPacket "tenant.location" "edge" (Some [("CPU/Load", load)]) in
  is_dict [("Memory/Avail", avail)] = true
  /\ is_dict (stored_metrics self) = true
  /\ payload self (Some [("Memory/Avail", avail)]) 1000 {| bdSeq := 0 |}
     = (Ok (serialized
              (with_encoded [("Memory/Avail", avail)]
                 (fst (base_message self 1000 {| bdSeq := 0 |})))),
        {| bdSeq := 0 |}).
Proof.
  intros load avail self.
  split; [reflexivity | split; [reflexivity |]].
  exact (proj1 (payload_override self [] [] [] ("Memory/Avail", avail) 1000
                  {| bdSeq := 0 |} eq_refl eq_refl)).
Defined.

(** C3 fails as stated: an override that is supplied but empty is not
    encoded; the stored metric is. *)
Lemma empty_override_encodes_stored :
  fst (payload
         (NDataPacket "tenant.location" "edge"
            (Some [("CPU/Load",
                    {| alias := "CPU/Load"; alias_map := 3; data_type := 9;
                       value := PyFloat "0.5"; properties := None |})]))
         (Some []) 1000 {| bdSeq := 0 |})
  = Ok (serialized
          {| timestamp := Some 1000; bdSeq_field := None;
             metrics :=
               [{| name := Some "CPU/Load"; walias := Some 3;
                   datatype := Some 9; mvalue := float_value (PyFloat "0.5");
                   wproperties := {| keys := []; values := [] |} |}];
             seq := None |}).
Proof. reflexivity. Qed.

(** ** The base message of NDATA *)

Lemma call_marshal_payload_nothing (payload_ : Payload) :
  call_marshal_payload payload_ (Some []) = Ok (serialized payload_).
Proof. reflexivity. Qed.



(** ** Repeated calls *)

Lemma call_marshal_payload_total (base : Payload) (d : MetricMapping) :
  call_marshal_payload base (Some d)
  = Ok (serialized
          (set_metrics
             (metrics base ++ flat_map (encode_at d) (dict_keys d)) base)).
Proof. unfold call_marshal_payload. rewrite marshal_payload_run. reflexivity. Qed.

(** C6, as the code has it. Two calls of [payload] on an NDEATH packet
    never return the same bytes: whatever the packet's identifiers and
    stored metrics, the overrides and the clock readings, the first
    payload embeds the current [bdSeq], the second the next one, and the
    counter has advanced by two. *)
Theorem ndeath_payloads_embed_successive_bdSeq :
  forall (group node : string) (stored : MetricMapping)
         (ov1 ov2 : option MetricMapping) (now1 now2 : Z)
         (ctx : SequenceContext),
    let self := NDeath group node stored in
    let first := payload self ov1 now1 ctx in
    let second := payload self ov2 now2 (snd first) in
    embedded_bdSeq (fst first) = Some (bdSeq ctx)
    /\ embedded_bdSeq (fst second) = Some (bdSeq ctx + 1)
    /\ fst first <> fst second
    /\ bdSeq (snd second) = bdSeq ctx + 2.
Proof.
  intros group node stored ov1 ov2 now1 now2 ctx self first second.
  subst self first second.
  cbn [payload kind_of NDeathPacket_payload getNodeDeathPayload fst snd
       embedded_bdSeq ParseFromString bdSeq_field bdSeq].
  repeat split.
  - intro H. injection H as H. lia.
  - lia.
Qed.

(** C6 fails as stated: two calls of [payload] on the same NDEATH packet,
    in the same millisecond, return different bytes, the first with
    [bdSeq] 0 and the second with [bdSeq] 1. *)
Lemma ndeath_payload_twice_differs :
  let self := NDeathPacket "tenant.location" "edge" None in
  let first := payload self None 1000 {| bdSeq := 0 |} in
  let second := payload self None 1000 (snd first) in
  fst first <> fst second
  /\ embedded_bdSeq (fst first) = Some 0
  /\ embedded_bdSeq (fst second) = Some 1.
Proof.
  cbv zeta. repeat split. discriminate.
Qed.

(** ** Birth and death sequence numbers *)

Lemma after_call_no_ndeath (c : Call) (ctx : SequenceContext) :
  is_ndeath_payload c = false -> after_call ctx c = ctx.
Proof.
  destruct c as [self ov now | self]; [| reflexivity].
  cbn [is_ndeath_payload after_call]. rewrite payload_unfold. cbn [snd].
  destruct self; cbn [kind_of]; intro H; try discriminate H; reflexivity.
Qed.

Lemma after_calls_no_ndeath (cs : list Call) :
  forall ctx : SequenceContext,
    existsb is_ndeath_payload cs = false -> after_calls cs ctx = ctx.
Proof.
  induction cs as [| c cs IH]; intros ctx H; [reflexivity |].
  cbn [existsb] in H. apply orb_false_iff in H. destruct H as [Hc Hcs].
  unfold after_calls. cbn [fold_left].
  rewrite (after_call_no_ndeath c ctx Hc). exact (IH ctx Hcs).
Qed.

Lemma embedded_bdSeq_marshal (base : Payload) (d : MetricMapping) :
  embedded_bdSeq (call_marshal_payload base (Some d)) = bdSeq_field base.
Proof. rewrite call_marshal_payload_total. reflexivity. Qed.

(** C1, as the code has it. The counter is one for the whole process. An
    NBIRTH payload embeds the current [bdSeq], say N, and does not advance
    it; if no NDEATH payload is constructed in between, for this node or
    any other, the next NDEATH payload for the node embeds N as well and
    advances the counter; and if again no NDEATH payload is constructed in
    between, the following NBIRTH payload for the node embeds N+1. Other
    calls (topics, payloads of the other seven kinds, for any node) may
    come in between. *)
Theorem ndeath_pairs_with_nbirth
    (group node : string) (stored1 stored2 stored3 : MetricMapping)
    (ov1 ov2 ov3 : option MetricMapping) (now1 now2 now3 : Z)
    (between1 between2 : list Call) (ctx : SequenceContext)
    (H1 : existsb is_ndeath_payload between1 = false)
    (H2 : existsb is_ndeath_payload between2 = false) :
  let birth := payload (NBirth group node stored1) ov1 now1 ctx in
  let ctx1 := after_calls between1 (snd birth) in
  let death := payload (NDeath group node stored2) ov2 now2 ctx1 in
  let ctx2 := after_calls between2 (snd death) in
  let birth' := payload (NBirth group node stored3) ov3 now3 ctx2 in
  embedded_bdSeq (fst birth) = Some (bdSeq ctx)
  /\ snd birth = ctx
  /\ embedded_bdSeq (fst death) = Some (bdSeq ctx)
  /\ bdSeq (snd death) = bdSeq ctx + 1
  /\ embedded_bdSeq (fst birth') = Some (bdSeq ctx + 1).
Proof.
  intros birth ctx1 death ctx2 birth'.
  assert (Hb : forall s o t c,
             embedded_bdSeq (fst (payload (NBirth group node s) o t c))
             = Some (bdSeq c)
             /\ snd (payload (NBirth group node s) o t c) = c).
  { intros s o t c. rewrite payload_unfold. cbn [fst snd kind_of is_death].
    rewrite embedded_bdSeq_marshal. split; reflexivity. }
  assert (Hd : forall s o t c,
             embedded_bdSeq (fst (payload (NDeath group node s) o t c))
             = Some (bdSeq c)
             /\ bdSeq (snd (payload (NDeath group node s) o t c))
                = bdSeq c + 1).
  { intros s o t c. split; reflexivity. }
  assert (E1 : ctx1 = ctx).
  { subst ctx1 birth. rewrite (after_calls_no_ndeath _ _ H1).
    apply Hb. }
  assert (E2 : ctx2 = snd death).
  { subst ctx2. apply (after_calls_no_ndeath _ _ H2). }
  subst birth' death birth. rewrite E2, E1.
  destruct (Hb stored1 ov1 now1 ctx) as [Hb1 Hb2].
  destruct (Hd stored2 ov2 now2 ctx) as [Hd1 Hd2].
  destruct (Hb stored3 ov3 now3
              (snd (payload (NDeath group node stored2) ov2 now2 ctx)))
    as [Hb3 _].
  rewrite Hb3, Hd2. repeat split; assumption.
Qed.

Lemma ndeath_pairs_with_nbirth_witness :
  let m := {| alias := "Node Control/Rebirth"; alias_map := 1;
              data_type := 11; value := PyBool false; properties := None |} in
  let between1 :=
    [call_payload (NData "tenant.location" "edge" []) (Some [("r", m)]) 1001;
     call_topic (NDeath "tenant.location" "edge" []);
     call_payload (DBirth "tenant.location" "edge" "OGI" []) None 1002;
     call_payload (NBirth "tenant.location" "other" []) None 1003] in
  let between2 :=
    [call_payload (DDeath "tenant.location" "edge" "OGI" []) None 1005] in
  let birth :=
    payload (NBirth "tenant.location" "edge" [("r", m)]) None 1000
      {| bdSeq := 5 |} in
  let ctx1 := after_calls between1 (snd birth) in
  let death := payload (NDeath "tenant.location" "edge" []) None 1004 ctx1 in
  let ctx2 := after_calls between2 (snd death) in
  let birth' :=
    payload (NBirth "tenant.location" "edge" [("r", m)]) None 1006 ctx2 in
  existsb is_ndeath_payload between1 = false
  /\ existsb is_ndeath_payload between2 = false
  /\ embedded_bdSeq (fst birth) = Some 5
  /\ embedded_bdSeq (fst death) = Some 5
  /\ embedded_bdSeq (fst birth') = Some 6.
Proof.
  intros m between1 between2 birth ctx1 death ctx2 birth'.
  pose proof (ndeath_pairs_with_nbirth "tenant.location" "edge"
                [("r", m)] [] [("r", m)] None None None 1000 1004 1006
                between1 between2 {| bdSeq := 5 |} eq_refl eq_refl)
    as (Hb & _ & Hd & _ & Hb').
  repeat split; assumption.
Defined.

(** C1 fails as stated, per node: the NDEATH payload of another node,
    constructed between the NBIRTH and the NDEATH of a node, advances the
    shared counter, and the node's NDEATH payload then embeds a value other
    than the one its NBIRTH embedded. *)
Lemma ndeath_of_other_node_breaks_pairing :
  let between :=
    [call_payload (NDeathPacket "tenant.location" "other" None) None 1001] in
  let birth :=
    payload (NBirthPacket "tenant.location" "edge" None) None 1000
      {| bdSeq := 5 |} in
  let ctx1 := after_calls between (snd birth) in
  let death :=
    payload (NDeathPacket "tenant.location" "edge" None) None 1002 ctx1 in
  existsb (is_ndeath_payload_for "edge") between = false
  /\ embedded_bdSeq (fst birth) = Some 5
  /\ embedded_bdSeq (fst death) = Some 6.
Proof. cbv zeta. repeat split. Qed.

(** ** Construction of metrics *)

Lemma fits_not_string (v : PyValue) :
  fits_Union_int_float_bool v = true ->
  is_str v = false /\ is_string_value (dispatch_value v) = false.
Proof. destruct v; cbn; intro H; try discriminate H; split; reflexivity. Qed.

Lemma validate_value_Ok (convert : PyValue -> PyValue) (v v' : PyValue) :
  validate_value convert v = Ok v' ->
  v' = convert v /\ fits_Union_int_float_bool v' = true.
Proof.
  unfold validate_value.
  destruct (fits_Union_int_float_bool (convert v)) eqn:F; intro H;
    [| discriminate H].
  injection H as <-. split; [reflexivity | exact F].
Qed.

Lemma validate_value_str (convert : PyValue -> PyValue) (v : PyValue) :
  is_str (convert v) = true -> validate_value convert v = Raise ValidationError.
Proof.
  unfold validate_value. destruct (convert v); cbn; intro H;
    try discriminate H; reflexivity.
Qed.

(** C10, as the code has it. A [Metric] and a [MetricProperty] that are
    successfully constructed hold what the validation made of the
    argument, and that is an int, a float or a bool, never a string. A
    string argument is rejected with [ValidationError] when the validation
    leaves it a string; one that it converts is stored as what it was
    converted to. Hence the property branch of the encoder, run on a
    constructed property, returns and appends a value with the property's
    tag in the bool, the int or the float field, not in the string
    field. *)
Theorem constructed_value_is_never_a_string
    (convert : PyValue -> PyValue)
    (alias_ pname : string) (alias_map_ data_type_ pdata_type : Z)
    (value_ pvalue_ : PyValue) (properties_ : option (list MetricProperty))
    (m : Metric) (prop : MetricProperty)
    (Hm : Metric_init convert alias_ alias_map_ data_type_ value_ properties_
          = Ok m)
    (Hp : MetricProperty_init convert pname pdata_type pvalue_ = Ok prop) :
  value m = convert value_
  /\ prop_value prop = convert pvalue_
  /\ (isinstance (value m) Cint = true \/ isinstance (value m) Cfloat = true
      \/ isinstance (value m) Cbool = true)
  /\ (isinstance (prop_value prop) Cint = true
      \/ isinstance (prop_value prop) Cfloat = true
      \/ isinstance (prop_value prop) Cbool = true)
  /\ is_str (value m) = false
  /\ is_str (prop_value prop) = false
  /\ (forall s a am dt ps n pdt,
         is_str (convert (PyStr s)) = true ->
         Metric_init convert a am dt (PyStr s) ps = Raise ValidationError
         /\ MetricProperty_init convert n pdt (PyStr s)
            = Raise ValidationError)
  /\ (forall (pre post : list WireMetric) (w : WireMetric) (p0 : Payload)
             (mo : option MetricMapping),
         let st' :=
           marshal_property (List.length pre) prop
             {| payload_obj := set_metrics (pre ++ w :: post) p0;
                metrics_obj := mo |} in
         fst st' = Ok tt
         /\ exists (w' : WireMetric) (pv : PropertyValue),
              metrics (payload_obj (snd st')) = pre ++ w' :: post
              /\ keys (wproperties w') = keys (wproperties w) ++ [pname]
              /\ values (wproperties w') = values (wproperties w) ++ [pv]
              /\ type_ pv = Some pdata_type
              /\ is_string_value (pvalue pv) = false
              /\ (pvalue pv = bool_value (prop_value prop)
                  \/ pvalue pv = int_value (prop_value prop)
                  \/ pvalue pv = float_value (prop_value prop))).
Proof.
  unfold Metric_init, MetricProperty_init in *.
  destruct (validate_value convert value_) as [v |] eqn:Vm;
    [| discriminate Hm].
  destruct (validate_value convert pvalue_) as [pv |] eqn:Vp;
    [| discriminate Hp].
  injection Hm as <-. injection Hp as <-.
  cbn [value prop_value].
  destruct (validate_value_Ok _ _ _ Vm) as [Em Fm].
  destruct (validate_value_Ok _ _ _ Vp) as [Ep Fp].
  destruct (fits_not_string _ Fm) as [Sm _].
  destruct (fits_not_string _ Fp) as [Sp _].
  split; [exact Em |]. split; [exact Ep |].
  split.
  { unfold fits_Union_int_float_bool in Fm.
    apply orb_true_iff in Fm. rewrite orb_true_iff in Fm. tauto. }
  split.
  { unfold fits_Union_int_float_bool in Fp.
    apply orb_true_iff in Fp. rewrite orb_true_iff in Fp. tauto. }
  split; [exact Sm |]. split; [exact Sp |].
  split.
  { intros s a am dt ps n pdt Hs.
    rewrite (validate_value_str convert (PyStr s) Hs). split; reflexivity. }
  intros pre post w p0 mo.
  set (prop := {| prop_name := pname; prop_data_type := pdata_type;
                  prop_value := pv |}).
  destruct (marshal_property_appends pre post w prop p0 mo) as [Hok Hms].
  split; [exact Hok |].
  exists (append_property prop w), (encode_property prop).
  split; [exact Hms |].
  unfold append_property, encode_property, prop.
  cbn [set_wproperties wproperties keys values type_ pvalue
       prop_name prop_data_type prop_value].
  do 3 (split; [reflexivity |]).
  rewrite isinstance_chain.
  destruct pv; cbn in Fp; try discriminate Fp; cbn; split; auto.
Qed.

Lemma constructed_value_is_never_a_string_witness :
  let prop := {| prop_name := "Setpoint"; prop_data_type := 5;
                 prop_value := PyInt 12 |} in
  let m := {| alias := "OGI/Flow"; alias_map := 8; data_type := 9;
              value := PyFloat "0.5"; properties := Some [prop] |} in
  Metric_init lax_convert "OGI/Flow" 8 9 (PyFloat "0.5") (Some [prop]) = Ok m
  /\ MetricProperty_init lax_convert "Setpoint" 5 (PyStr "12") = Ok prop
  /\ is_str (value m) = false
  /\ is_str (prop_value prop) = false.
Proof.
  intros prop m.
  pose proof (constructed_value_is_never_a_string lax_convert
                "OGI/Flow" "Setpoint" 8 9 5 (PyFloat "0.5") (PyStr "12")
                (Some [prop]) m prop eq_refl eq_refl)
    as (_ & _ & _ & _ & Hm & Hp & _).
  repeat split; assumption.
Defined.

(** C10 fails as stated: under a validation that reads a numeric string
    as a number, a string value is not rejected at construction; the
    metric and the property are constructed, with the number as their
    value. A string that spells no number is rejected. *)
Lemma numeric_string_is_accepted_at_construction :
  is_str (PyStr "12") = true
  /\ Metric_init lax_convert "CPU/Load" 3 9 (PyStr "12") None
     = Ok {| alias := "CPU/Load"; alias_map := 3; data_type := 9;
             value := PyInt 12; properties := None |}
  /\ MetricProperty_init lax_convert "Setpoint" 5 (PyStr "12")
     = Ok {| prop_name := "Setpoint"; prop_data_type := 5;
             prop_value := PyInt 12 |}
  /\ Metric_init lax_convert "CPU/Load" 3 9 (PyStr "high") None
     = Raise ValidationError.
Proof. repeat split. Qed.

(** * Further properties of the encoder *)

(** ** Errors *)

Lemma bind_raise {A B : Type} (c : Enc A) (k : A -> Enc B) (st st' : Store)
    (e : exn) :
  c st = (Raise e, st') -> bind c k st = (Raise e, st').
Proof. intro H. unfold bind. rewrite H. reflexivity. Qed.

(** X1. [marshal_payload] has one statement of its own that fails before
    the loop, and handles no exception. Called without a mapping (the
    parameter's default) it raises [TypeError] at [list(metrics)], before
    [addMetric] is called and before anything is written to the message.
    Called with an empty mapping it does not call [addMetric] and returns
    the message serialized as it was given. An exception that [addMetric]
    raises for the first key is passed on as it is, and no statement after
    the call is run. All this holds whatever [addMetric] is. *)
Theorem marshal_payload_stops_at_the_first_exception :
  forall (add : string -> Z -> Z -> PyValue -> Enc nat) (payload_ : Payload)
         (k : string) (m : Metric) (d : MetricMapping) (e : exn)
         (st' : Store),
    marshal_payload_with add
      {| payload_obj := payload_; metrics_obj := None |}
    = (Raise TypeError, {| payload_obj := payload_; metrics_obj := None |})
    /\ call_marshal_payload payload_ None = Raise TypeError
    /\ marshal_payload_with add
         {| payload_obj := payload_; metrics_obj := Some [] |}
       = (Ok (serialized payload_),
          {| payload_obj := payload_; metrics_obj := Some [] |})
    /\ (add k (alias_map m) (data_type m) (value m)
          {| payload_obj := payload_; metrics_obj := Some ((k, m) :: d) |}
        = (Raise e, st') ->
        marshal_payload_with add
          {| payload_obj := payload_; metrics_obj := Some ((k, m) :: d) |}
        = (Raise e, st')).
Proof.
  intros add payload_ k m d e st'.
  do 3 (split; [reflexivity |]).
  intro Hadd.
  assert (Hk : dict_get ((k, m) :: d) k = Some m)
    by (cbn [dict_get]; rewrite String.eqb_refl; reflexivity).
  unfold marshal_payload_with.
  erewrite bind_ok by reflexivity.
  apply bind_raise. cbn [dict_keys map fst for_each].
  apply bind_raise. unfold marshal_metric_with.
  do 3 (erewrite bind_ok by (apply getattr_metric_run; exact Hk)).
  apply bind_raise. exact Hadd.
Qed.

Lemma marshal_payload_stops_at_the_first_exception_witness :
  let refusing :=
    fun (_ : string) (_ _ : Z) (_ : PyValue) (st : Store) =>
      (@Raise nat TypeError, st) in
  let st :=
    {| payload_obj := empty_Payload;
       metrics_obj :=
         Some [("CPU/Load",
                {| alias := "CPU/Load"; alias_map := 3; data_type := 9;
                   value := PyFloat "0.5"; properties := None |})] |} in
  marshal_payload_with refusing st = (Raise TypeError, st).
Proof.
  intros refusing st.
  exact (proj2 (proj2 (proj2
           (marshal_payload_stops_at_the_first_exception refusing
              empty_Payload "CPU/Load"
              {| alias := "CPU/Load"; alias_map := 3; data_type := 9;
                 value := PyFloat "0.5"; properties := None |}
              [] TypeError st)))
         eq_refl).
Defined.

(** ** What is appended *)

Lemma encode_at_name (d : MetricMapping) (ks : list string) :
  (forall k, In k ks -> dict_get d k <> None) ->
  map name (flat_map (encode_at d) ks) = map Some ks.
Proof.
  induction ks as [| k ks IH]; intro Hks; [reflexivity |].
  cbn [flat_map map]. rewrite map_app, IH
    by (intros k' Hk'; apply Hks; right; exact Hk').
  unfold encode_at. destruct (dict_get d k) as [m |] eqn:E.
  - reflexivity.
  - exfalso. apply (Hks k); [left; reflexivity | exact E].
Qed.

(** X2. [marshal_payload] only appends: the timestamp, the [bdSeq] and the
    [seq] of the message it is given stay as they are, the metrics already
    in the message stay in front, in their order and unchanged, and one
    metric per key of the mapping is appended, named by the key, in the
    mapping's insertion order. *)
Theorem marshal_payload_appends :
  forall (payload_ : Payload) (d : MetricMapping),
  exists appended : list WireMetric,
    call_marshal_payload payload_ (Some d)
    = Ok (serialized
            {| timestamp := timestamp payload_;
               bdSeq_field := bdSeq_field payload_;
               metrics := metrics payload_ ++ appended;
               seq := seq payload_ |})
    /\ map name appended = map Some (dict_keys d)
    /\ List.length appended = List.length d.
Proof.
  intros payload_ d.
  exists (flat_map (encode_at d) (dict_keys d)).
  rewrite call_marshal_payload_total.
  pose proof (encode_at_name d (dict_keys d) (dict_get_key d)) as Hn.
  split; [reflexivity | split; [exact Hn |]].
  rewrite <- (length_map name), Hn, length_map.
  unfold dict_keys. apply length_map.
Qed.

Lemma encode_properties_iter (ps : option (list MetricProperty)) :
  encode_properties ps
  = {| keys := map prop_name (iter_properties ps);
       values := map encode_property (iter_properties ps) |}.
Proof. destruct ps as [[| p l] |]; reflexivity. Qed.

(** X3. For a dict, the [i]-th appended wire metric is the [i]-th entry of
    the mapping: its name is the entry's key, its numeric alias the
    metric's [alias_map], its tag the metric's [data_type]; its property
    keys are the property names in list order, and the property values
    are parallel to them, one per property, each with the property's own
    tag and the field its value's class selects. *)
Theorem wire_metric_at
    (payload_ : Payload) (d : MetricMapping) (i : nat) (k : string)
    (m : Metric)
    (Hd : is_dict d = true)
    (Hi : nth_error d i = Some (k, m)) :
  exists (msg : Payload) (w : WireMetric),
    call_marshal_payload payload_ (Some d) = Ok (serialized msg)
    /\ nth_error (metrics msg) (List.length (metrics payload_) + i) = Some w
    /\ name w = Some k
    /\ walias w = Some (alias_map m)
    /\ datatype w = Some (data_type m)
    /\ keys (wproperties w) = map prop_name (iter_properties (properties m))
    /\ map type_ (values (wproperties w))
       = map (fun prop => Some (prop_data_type prop))
           (iter_properties (properties m))
    /\ map pvalue (values (wproperties w))
       = map (fun prop => dispatch_value (prop_value prop))
           (iter_properties (properties m))
    /\ List.length (keys (wproperties w))
       = List.length (values (wproperties w)).
Proof.
  exists (with_encoded d payload_), (encode_metric (k, m)).
  split; [apply (call_marshal_payload_entries d payload_ Hd) |].
  split.
  { unfold with_encoded. cbn [metrics set_metrics].
    rewrite nth_error_app2 by lia.
    replace (List.length (metrics payload_) + i
             - List.length (metrics payload_))%nat with i by lia.
    rewrite nth_error_map, Hi. reflexivity. }
  cbn [encode_metric name walias datatype wproperties].
  rewrite encode_properties_iter. cbn [keys values].
  rewrite !map_map, !length_map. repeat split.
Qed.

Lemma wire_metric_at_witness :
  let flow := {| alias := "OGI/Flow"; alias_map := 8; data_type := 9;
                 value := PyFloat "92.23";
                 properties :=
                   Some [{| prop_name := "Setpoint"; prop_data_type := 5;
                            prop_value := PyInt 1 |};
                         {| prop_name := "Quality"; prop_data_type := 9;
                            prop_value := PyFloat "98.9" |}] |} in
  let uptime := {| alias := "OGI/Uptime"; alias_map := 10; data_type := 9;
                   value := PyFloat "100.0"; properties := None |} in
  let d := [("OGI/Flow", flow); ("OGI/Uptime", uptime)] in
  is_dict d = true
  /\ nth_error d 0 = Some ("OGI/Flow", flow)
  /\ exists (msg : Payload) (w : WireMetric),
       call_marshal_payload empty_Payload (Some d) = Ok (serialized msg)
       /\ nth_error (metrics msg) 0 = Some w
       /\ keys (wproperties w) = ["Setpoint"; "Quality"].
Proof.
  intros flow uptime d.
  split; [reflexivity | split; [reflexivity |]].
  destruct (wire_metric_at empty_Payload d 0 "OGI/Flow" flow eq_refl eq_refl)
    as (msg & w & Hmsg & Hw & _ & _ & _ & Hk & _).
  exists msg, w. repeat split; assumption.
Defined.

(** ** What the wire does not show *)

Lemma dict_keys_map_values (h : Metric -> Metric) (d : MetricMapping) :
  dict_keys (map_values h d) = dict_keys d.
Proof.
  unfold dict_keys, map_values. rewrite map_map. reflexivity.
Qed.

Lemma dict_get_map_values (h : Metric -> Metric) (d : MetricMapping)
    (k : string) :
  dict_get (map_values h d) k = option_map h (dict_get d k).
Proof.
  induction d as [| [k' m] d IH]; [reflexivity |].
  cbn [map_values map dict_get fst snd].
  destruct (String.eqb k k'); [reflexivity | exact IH].
Qed.

Lemma encode_at_map_values {V : Type} (view : WireMetric -> V)
    (h : Metric -> Metric) (d : MetricMapping) :
  (forall k m, view (encode_metric (k, h m)) = view (encode_metric (k, m))) ->
  forall ks : list string,
    map view (flat_map (encode_at (map_values h d)) ks)
    = map view (flat_map (encode_at d) ks).
Proof.
  intros Hview ks. induction ks as [| k ks IH]; [reflexivity |].
  cbn [flat_map]. rewrite !map_app, IH. f_equal.
  unfold encode_at. rewrite dict_get_map_values.
  destruct (dict_get d k) as [m |]; [| reflexivity].
  cbn [option_map map]. rewrite Hview. reflexivity.
Qed.

Lemma call_marshal_payload_map_values (h : Metric -> Metric)
    (d : MetricMapping) (payload_ : Payload) :
  (forall k m, encode_metric (k, h m) = encode_metric (k, m)) ->
  call_marshal_payload payload_ (Some (map_values h d))
  = call_marshal_payload payload_ (Some d).
Proof.
  intro Hh. rewrite !call_marshal_payload_total, dict_keys_map_values.
  pose proof (encode_at_map_values (fun w => w) h d Hh (dict_keys d)) as E.
  rewrite !map_id in E. rewrite E. reflexivity.
Qed.

(** X4. The [alias] attribute of a metric never reaches the wire: the name
    written is the mapping's key. Whatever the [alias] attributes of the
    metrics are set to, the payload is the same. *)
Theorem alias_attribute_is_not_encoded :
  forall (payload_ : Payload) (d : MetricMapping)
         (rename : Metric -> string),
    call_marshal_payload payload_
      (Some (map_values (fun m => set_alias (rename m) m) d))
    = call_marshal_payload payload_ (Some d).
Proof.
  intros payload_ d rename.
  apply call_marshal_payload_map_values. reflexivity.
Qed.

(** X5. A metric whose [properties] is the empty list is encoded like one
    whose [properties] is [None]: in both cases the wire metric has no
    property keys and no property values. *)
Theorem empty_property_list_is_no_properties :
  forall (payload_ : Payload) (d : MetricMapping),
    call_marshal_payload payload_ (Some (map_values drop_empty_properties d))
    = call_marshal_payload payload_ (Some d).
Proof.
  intros payload_ d. apply call_marshal_payload_map_values.
  intros k m. unfold drop_empty_properties.
  destruct m as [a am dt v [[| p ps] |]]; reflexivity.
Qed.

Lemma dispatch_value_stringified (v : PyValue) :
  dispatch_value (stringified v) = dispatch_value v.
Proof. destruct v as [b | z | r | s | | s]; reflexivity. Qed.

(** X6. The string branch does not record the class of the value: a
    property value that is neither bool nor int nor float is encoded
    exactly like the string [str] gives for it, so [None] and the string
    ["None"] are the same payload. Values that are bool, int or float are
    not affected. *)
Theorem stringified_property_values_are_encoded_alike :
  forall (payload_ : Payload) (d : MetricMapping),
    call_marshal_payload payload_
      (Some (map_values
               (map_properties
                  (fun prop => set_prop_value (stringified (prop_value prop))
                                 prop))
               d))
    = call_marshal_payload payload_ (Some d).
Proof.
  intros payload_ d. apply call_marshal_payload_map_values.
  intros k m. unfold encode_metric, map_properties, set_properties.
  cbn [alias_map data_type value properties]. f_equal.
  rewrite !encode_properties_iter.
  destruct (properties m) as [ps |]; [| reflexivity].
  cbn [option_map iter_properties]. rewrite !map_map. f_equal.
  apply map_ext. intro prop. unfold encode_property, set_prop_value.
  cbn [prop_data_type prop_value]. rewrite dispatch_value_stringified.
  reflexivity.
Qed.

(** X7. The tag of a property is written as it is and never checked
    against the value: whatever the [data_type] of the properties are set
    to, the payload differs at most in the type tags of the property
    values; names, aliases, metric tags, metric values, property keys and
    the field and content of every property value are the same. *)
Theorem property_tags_do_not_steer_the_value :
  forall (payload_ : Payload) (d : MetricMapping)
         (retag : MetricProperty -> Z),
    let retagged :=
      map_values
        (map_properties (fun prop => set_prop_data_type (retag prop) prop))
        d in
    is_Ok (call_marshal_payload payload_ (Some retagged)) = true
    /\ map untagged (metrics_of (call_marshal_payload payload_ (Some retagged)))
       = map untagged (metrics_of (call_marshal_payload payload_ (Some d))).
Proof.
  intros payload_ d retag retagged. subst retagged.
  rewrite !call_marshal_payload_total, dict_keys_map_values.
  split; [reflexivity |].
  cbn [metrics_of ParseFromString metrics set_metrics].
  rewrite !map_app. f_equal.
  apply encode_at_map_values.
  intros k m. unfold untagged, encode_metric, map_properties, set_properties.
  cbn [name walias datatype mvalue wproperties alias_map data_type value
       properties].
  rewrite !encode_properties_iter. cbn [keys values].
  destruct (properties m) as [ps |]; [| reflexivity].
  cbn [option_map iter_properties]. rewrite !map_map. reflexivity.
Qed.

(** ** Encoding in steps *)

Lemma distinct_app (l1 l2 : list string) :
  distinct (l1 ++ l2) = true ->
  distinct l1 = true /\ distinct l2 = true
  /\ forall k, In k l2 -> mem_string k l1 = false.
Proof.
  induction l1 as [| k1 l1 IH]; cbn [app distinct]; intro H.
  - split; [reflexivity | split; [exact H | reflexivity]].
  - apply andb_true_iff in H. destruct H as [Hk H].
    destruct (IH H) as (D1 & D2 & Hdis).
    apply negb_true_iff in Hk.
    assert (Hk1 : mem_string k1 l1 = false).
    { destruct (mem_string k1 l1) eqn:E; [| reflexivity].
      apply mem_string_In in E.
      assert (Hin : In k1 (l1 ++ l2)) by (apply in_or_app; left; exact E).
      apply mem_string_In in Hin. congruence. }
    repeat split.
    + rewrite Hk1, D1. reflexivity.
    + exact D2.
    + intros k Hin. cbn [mem_string]. rewrite (Hdis k Hin), orb_false_r.
      destruct (String.eqb k k1) eqn:E; [| reflexivity].
      apply String.eqb_eq in E. subst k1.
      assert (Hin' : In k (l1 ++ l2)) by (apply in_or_app; right; exact Hin).
      apply mem_string_In in Hin'. congruence.
Qed.

(** X8. Encoding can be done in steps: for a dict cut in two, encoding the
    first part into a message and then the second part into the message
    that results gives the payload of encoding the whole dict at once. *)
Theorem marshal_payload_in_steps
    (payload_ : Payload) (d1 d2 : MetricMapping)
    (Hd : is_dict (d1 ++ d2) = true) :
  call_marshal_payload payload_ (Some (d1 ++ d2))
  = match call_marshal_payload payload_ (Some d1) with
    | Ok b => call_marshal_payload (ParseFromString b) (Some d2)
    | Raise e => Raise e
    end.
Proof.
  assert (Hd12 : distinct (dict_keys d1 ++ dict_keys d2) = true)
    by (unfold is_dict, dict_keys in Hd; rewrite map_app in Hd; exact Hd).
  destruct (distinct_app _ _ Hd12) as (D1 & D2 & _).
  rewrite (call_marshal_payload_entries _ _ Hd),
          (call_marshal_payload_entries d1 _ D1).
  cbn [ParseFromString].
  rewrite (call_marshal_payload_entries d2 _ D2).
  unfold with_encoded. cbn [metrics set_metrics timestamp bdSeq_field seq].
  rewrite map_app, app_assoc. reflexivity.
Qed.

Lemma marshal_payload_in_steps_witness :
  let m := {| alias := "CPU/Load"; alias_map := 3; data_type := 9;
              value := PyFloat "1.23"; properties := None |} in
  let d1 := [("CPU/Load", m)] in
  let d2 := [("Memory/Avail",
              {| alias := "Memory/Avail"; alias_map := 4; data_type := 8;
                 value := PyInt 123412341234; properties := None |})] in
  is_dict (d1 ++ d2) = true
  /\ call_marshal_payload empty_Payload (Some (d1 ++ d2))
     = match call_marshal_payload empty_Payload (Some d1) with
       | Ok b => call_marshal_payload (ParseFromString b) (Some d2)
       | Raise e => Raise e
       end.
Proof.
  intros m d1 d2. split; [reflexivity |].
  exact (marshal_payload_in_steps empty_Payload d1 d2 eq_refl).
Defined.

(** * Further properties of topics and packets *)

(** ** Reading a topic back *)

Lemma split_slash_free (a : string) :
  has_slash a = false -> split_slash a = [a].
Proof.
  induction a as [| c a IH]; [reflexivity |].
  cbn [has_slash split_slash]. intro H.
  apply orb_false_iff in H. destruct H as [Hc Ha].
  rewrite Hc, (IH Ha). reflexivity.
Qed.

Lemma split_slash_app (a b : string) :
  has_slash a = false ->
  split_slash (a ++ String "/" b)%string = a :: split_slash b.
Proof.
  induction a as [| c a IH]; [reflexivity |].
  cbn [has_slash]. intro H.
  apply orb_false_iff in H. destruct H as [Hc Ha].
  cbn [String.append split_slash]. rewrite Hc, (IH Ha). reflexivity.
Qed.

Lemma split_slash_concat (seg : string) (segs : list string) :
  forallb (fun x => negb (has_slash x)) (seg :: segs) = true ->
  split_slash (String.concat "/" (seg :: segs)) = seg :: segs.
Proof.
  revert seg. induction segs as [| seg' segs IH]; intros seg H;
    cbn [forallb] in H; apply andb_true_iff in H; destruct H as [Hs H];
    apply negb_true_iff in Hs.
  - exact (split_slash_free seg Hs).
  - change (String.concat "/" (seg :: seg' :: segs))
      with (seg ++ String "/" (String.concat "/" (seg' :: segs)))%string.
    rewrite (split_slash_app _ _ Hs), (IH seg' H). reflexivity.
Qed.

Lemma kind_name_inj (k k' : Kind) : kind_name k = kind_name k' -> k = k'.
Proof. destruct k, k'; intro H; try reflexivity; discriminate H. Qed.

Lemma split_slash_topic (self : Packet) :
  slash_free self = true ->
  option_map split_slash
    (match topic self with Ok t => Some t | Raise _ => None end)
  = Some ("spBv1.0" :: group_of self :: kind_name (kind_of self)
            :: node_of self :: device_segment self).
Proof.
  intro H. rewrite topic_segments. cbn [option_map]. f_equal.
  apply split_slash_concat.
  unfold slash_free in H. apply andb_true_iff in H. destruct H as [H Hd].
  apply andb_true_iff in H. destruct H as [Hg Hn].
  cbn [forallb]. rewrite Hg, Hn, Hd.
  destruct (kind_of self); reflexivity.
Qed.

(** X10. When the group, node and device strings are free of [/], the
    topic determines the packet's kind and identifiers: two packets with
    the same topic are of the same kind and have the same group, the same
    node and the same device segment. (With a [/] inside an identifier
    this fails: node [b] with device [c/d] and node [b/c] with device [d]
    give one topic.) *)
Theorem topic_determines_identifiers
    (self other : Packet)
    (Hself : slash_free self = true) (Hother : slash_free other = true)
    (Hsame : topic self = topic other) :
  kind_of self = kind_of other
  /\ group_of self = group_of other
  /\ node_of self = node_of other
  /\ device_segment self = device_segment other.
Proof.
  pose proof (split_slash_topic self Hself) as Es.
  pose proof (split_slash_topic other Hother) as Eo.
  rewrite Hsame, Eo in Es.
  injection Es as Eg Ek En Ed.
  apply kind_name_inj in Ek.
  repeat split; symmetry; assumption.
Qed.

Lemma topic_determines_identifiers_witness :
  let self := DBirthPacket "site.A" "gw1" (Some "sensor1") None in
  let other :=
    DBirth "site.A" "gw1" "sensor1"
      [("OGI/Uptime",
        {| alias := "OGI/Uptime"; alias_map := 10; data_type := 9;
           value := PyFloat "0.0"; properties := None |})] in
  slash_free self = true /\ slash_free other = true
  /\ topic self = topic other
  /\ kind_of self = kind_of other
  /\ device_segment self = device_segment other.
Proof.
  intros self other.
  do 3 (split; [reflexivity |]).
  destruct (topic_determines_identifiers self other eq_refl eq_refl eq_refl)
    as (Hk & _ & _ & Hd).
  split; assumption.
Defined.

(** Without the hypothesis the topic is ambiguous. *)
Example topic_collision :
  topic (DBirthPacket "site.A" "b" (Some "c/d") None)
  = topic (DBirthPacket "site.A" "b/c" (Some "d") None).
Proof. reflexivity. Qed.

(** ** Identifiers and metrics are kept apart *)

(** X11. The identifiers go into the topic and nowhere else, the metrics
    into the payload and nowhere else: the topic of a packet does not
    change when its stored metrics do, and the payload (with the sequence
    context it leaves) does not change when the group, node and device
    strings do. In particular an NDEATH payload says nothing about which
    node it is for. *)
Theorem identifiers_and_metrics_are_separate :
  forall (self : Packet) (g n d : string) (m : MetricMapping)
         (ov : option MetricMapping) (now : Z) (ctx : SequenceContext),
    topic (with_metrics self m) = topic self
    /\ payload (set_identifiers g n d self) ov now ctx
       = payload self ov now ctx
    /\ kind_of (set_identifiers g n d self) = kind_of self
    /\ stored_metrics (set_identifiers g n d self) = stored_metrics self.
Proof.
  intros self g n d m ov now ctx. destruct self; repeat split.
Qed.

(** ** Constructor defaults *)

(** X12. A packet of any of the eight classes constructed without metrics,
    or with an empty dict, stores no metrics, and its [payload()] without
    an override is the serialized base message with no metric appended. A
    device-level birth, data or death packet constructed without a device
    id has the device segment [OGI] in its topic. *)
Theorem constructor_defaults :
  forall (g n : string) (dev : option string) (no_dict : bool) (now : Z)
         (ctx : SequenceContext),
    let ms := if no_dict then None else Some [] in
    Forall
      (fun self =>
         stored_metrics self = []
         /\ payload self None now ctx
            = (Ok (serialized (fst (base_message self now ctx))),
               snd (base_message self now ctx)))
      [NBirthPacket g n ms; NDataPacket g n ms; NCmdPacket g n ms;
       NDeathPacket g n ms; DBirthPacket g n dev ms; DDataPacket g n dev ms;
       DCmdPacket g n ms; DDeathPacket g n dev ms]
    /\ topic (DBirthPacket g n None ms)
       = Ok (topic_template DBIRTH g n "OGI")
    /\ topic (DDataPacket g n None ms) = Ok (topic_template DDATA g n "OGI")
    /\ topic (DDeathPacket g n None ms)
       = Ok (topic_template DDEATH g n "OGI").
Proof.
  intros g n dev no_dict now ctx ms. subst ms.
  split.
  - destruct no_dict; repeat (constructor; [split; reflexivity |]);
      constructor.
  - rewrite !topic_segments. destruct no_dict; repeat split.
Qed.

(** * Properties of the example builder *)

Lemma Metric_init_accepts (env : Environment) (a : string) (am dt : Z)
    (v : PyValue) (ps : option (list MetricProperty)) :
  accepts_fitting env ->
  fits_Union_int_float_bool v = true ->
  Metric_init (pydantic_convert env) a am dt v ps
  = Ok {| alias := a; alias_map := am; data_type := dt;
          value := pydantic_convert env v; properties := ps |}.
Proof.
  intros Henv Hv. unfold Metric_init, validate_value.
  rewrite (Henv v Hv). reflexivity.
Qed.

Lemma MetricProperty_init_accepts (env : Environment) (n : string) (dt : Z)
    (v : PyValue) :
  accepts_fitting env ->
  fits_Union_int_float_bool v = true ->
  MetricProperty_init (pydantic_convert env) n dt v
  = Ok {| prop_name := n; prop_data_type := dt;
          prop_value := pydantic_convert env v |}.
Proof.
  intros Henv Hv. unfold MetricProperty_init, validate_value.
  rewrite (Henv v Hv). reflexivity.
Qed.

Lemma build_nvidia_metrics_ok (env : Environment) :
  accepts_fitting env ->
  build_nvidia_metrics env = Ok (nvidia_metrics_catalog env).
Proof.
  intro Henv. unfold build_nvidia_metrics.
  rewrite !(Metric_init_accepts env _ _ _ _ _ Henv) by reflexivity.
  reflexivity.
Qed.

Lemma build_ogi_metrics_ok (env : Environment) :
  accepts_fitting env ->
  build_ogi_metrics env = Ok (ogi_metrics_catalog env).
Proof.
  intro Henv. unfold build_ogi_metrics.
  rewrite !(MetricProperty_init_accepts env _ _ _ Henv) by reflexivity.
  cbn [and_then].
  rewrite !(Metric_init_accepts env _ _ _ _ _ Henv) by reflexivity.
  reflexivity.
Qed.

(** X13. The node catalog is one dict shared by every packet made from
    it. In a process where it has not been built yet (and validation
    accepts the catalog's literals), [birth_certificate] builds it with
    the catalog values; [data_packet(cpu_load, memory_avail)] then assigns
    the two readings into that same dict, leaving keys, order and the
    other values as they are. From then on the birth packet made before,
    the data packet and a birth packet made afterwards all hold the same
    metrics: the catalog values of [CPU/Load] and [Memory/Avail] are gone,
    and an NBIRTH payload encodes the readings of the last data packet. *)
Theorem data_packet_writes_into_the_shared_catalog
    (env : Environment) (self : EdgeComputer) (cpu_load memory_avail : PyValue)
    (w : Caches) (now now' : Z) (ctx ctx' : SequenceContext)
    (Henv : accepts_fitting env)
    (Hfresh : nvidia_metrics_cache w = None) :
  let b := EdgeComputer_birth_certificate env self w in
  let p := EdgeComputer_data_packet env self cpu_load memory_avail (snd b) in
  let b' := EdgeComputer_birth_certificate env self (snd p) in
  exists birth data birth',
    fst b = Ok birth /\ fst p = Ok data /\ fst b' = Ok birth'
    /\ snd b' = snd p
    /\ stored_metrics (resolve birth (snd b)) = nvidia_metrics_catalog env
    /\ dict_keys (stored_metrics (resolve data (snd p)))
       = dict_keys (nvidia_metrics_catalog env)
    /\ map_values (set_metric_value PyNone)
         (stored_metrics (resolve data (snd p)))
       = map_values (set_metric_value PyNone) (nvidia_metrics_catalog env)
    /\ values_of (stored_metrics (resolve data (snd p)))
       = [("Node Control/Next Server", pydantic_convert env (PyBool false));
          ("Node Control/Rebirth", pydantic_convert env (PyBool false));
          ("Node Control/Reboot", pydantic_convert env (PyBool false));
          ("CPU/Load", cpu_load); ("Memory/Avail", memory_avail)]
    /\ stored_metrics (resolve birth (snd p))
       = stored_metrics (resolve data (snd p))
    /\ resolve birth' (snd p) = resolve birth (snd p)
    /\ metrics_of (fst (payload (resolve birth (snd p)) None now ctx))
       = metrics_of (fst (payload (resolve data (snd p)) None now' ctx')).
Proof.
  intros b p b'. subst b' p b.
  destruct w as [wr wn wo]. cbn [nvidia_metrics_cache] in Hfresh. subst wn.
  unfold EdgeComputer_birth_certificate, EdgeComputer_data_packet,
    NvidiaNBirthPacket, NvidiaNDataPacket, from_catalog, cache_call.
  cbn [cached nvidia_metrics_cache build_catalog].
  rewrite (build_nvidia_metrics_ok env Henv).
  cbn [fst snd store_catalog cached nvidia_metrics_cache].
  eexists _, _, _.
  repeat (split; [reflexivity |]).
  rewrite !payload_unfold. cbn [fst snd kind_of is_death].
  rewrite !call_marshal_payload_total. reflexivity.
Qed.

Lemma example_environment_accepts : accepts_fitting example_environment.
Proof. intros v H. exact H. Defined.

Lemma data_packet_writes_into_the_shared_catalog_witness :
  let self := {| ec_group := "tenant.location"; ec_node := "edge" |} in
  let b := EdgeComputer_birth_certificate example_environment self no_caches in
  let p :=
    EdgeComputer_data_packet example_environment self (PyFloat "1.23")
      (PyInt 123412341234) (snd b) in
  nvidia_metrics_cache no_caches = None
  /\ exists birth data,
       fst b = Ok birth /\ fst p = Ok data
       /\ values_of (stored_metrics (resolve birth (snd b)))
          = [("Node Control/Next Server", PyBool false);
             ("Node Control/Rebirth", PyBool false);
             ("Node Control/Reboot", PyBool false);
             ("CPU/Load", PyFloat "0.0"); ("Memory/Avail", PyInt 0)]
       /\ values_of (stored_metrics (resolve birth (snd p)))
          = [("Node Control/Next Server", PyBool false);
             ("Node Control/Rebirth", PyBool false);
             ("Node Control/Reboot", PyBool false);
             ("CPU/Load", PyFloat "1.23");
             ("Memory/Avail", PyInt 123412341234)].
Proof.
  intros self b p. split; [reflexivity |].
  destruct (data_packet_writes_into_the_shared_catalog example_environment
              self (PyFloat "1.23") (PyInt 123412341234) no_caches 0 0
              {| bdSeq := 0 |} {| bdSeq := 0 |}
              example_environment_accepts eq_refl)
    as (birth & data & _ & Hb & Hp & _ & _ & Hcat & _ & _ & Hv & Hsame & _).
  exists birth, data. subst p b. cbv zeta in Hb, Hp, Hcat, Hv, Hsame.
  split; [exact Hb |]. split; [exact Hp |].
  split.
  - rewrite Hcat. reflexivity.
  - rewrite Hsame, Hv. reflexivity.
Defined.

(** X14. A data packet is not a snapshot. In a process where the node
    catalog has not been built yet, a first [data_packet] holds its own
    readings right after it is made, but once a second [data_packet] has
    been made both packets hold the second one's readings, so a payload
    of the first packet taken then encodes the second readings. *)
Theorem later_data_packet_overwrites_earlier
    (env : Environment) (self : EdgeComputer)
    (cpu_load memory_avail cpu_load' memory_avail' : PyValue)
    (w : Caches) (now : Z) (ctx : SequenceContext)
    (Henv : accepts_fitting env)
    (Hfresh : nvidia_metrics_cache w = None) :
  let p := EdgeComputer_data_packet env self cpu_load memory_avail w in
  let p' :=
    EdgeComputer_data_packet env self cpu_load' memory_avail' (snd p) in
  exists first second,
    fst p = Ok first /\ fst p' = Ok second
    /\ values_of (stored_metrics (resolve first (snd p)))
       = [("Node Control/Next Server", pydantic_convert env (PyBool false));
          ("Node Control/Rebirth", pydantic_convert env (PyBool false));
          ("Node Control/Reboot", pydantic_convert env (PyBool false));
          ("CPU/Load", cpu_load); ("Memory/Avail", memory_avail)]
    /\ values_of (stored_metrics (resolve first (snd p')))
       = [("Node Control/Next Server", pydantic_convert env (PyBool false));
          ("Node Control/Rebirth", pydantic_convert env (PyBool false));
          ("Node Control/Reboot", pydantic_convert env (PyBool false));
          ("CPU/Load", cpu_load'); ("Memory/Avail", memory_avail')]
    /\ resolve first (snd p') = resolve second (snd p')
    /\ payload (resolve first (snd p')) None now ctx
       = payload (resolve second (snd p')) None now ctx.
Proof.
  intros p p'. subst p' p.
  destruct w as [wr wn wo]. cbn [nvidia_metrics_cache] in Hfresh. subst wn.
  unfold EdgeComputer_data_packet, NvidiaNDataPacket, from_catalog,
    cache_call.
  cbn [cached nvidia_metrics_cache build_catalog].
  rewrite (build_nvidia_metrics_ok env Henv).
  cbn [fst snd store_catalog cached nvidia_metrics_cache].
  eexists _, _. repeat (split; [reflexivity |]). reflexivity.
Qed.

Lemma later_data_packet_overwrites_earlier_witness :
  let self := {| ec_group := "tenant.location"; ec_node := "edge" |} in
  let p :=
    EdgeComputer_data_packet example_environment self (PyFloat "1.23")
      (PyInt 123412341234) no_caches in
  let p' :=
    EdgeComputer_data_packet example_environment self (PyFloat "0.5")
      (PyInt 2048) (snd p) in
  nvidia_metrics_cache no_caches = None
  /\ exists first,
       fst p = Ok first
       /\ option_map value
            (dict_get (stored_metrics (resolve first (snd p))) "CPU/Load")
          = Some (PyFloat "1.23")
       /\ option_map value
            (dict_get (stored_metrics (resolve first (snd p'))) "CPU/Load")
          = Some (PyFloat "0.5").
Proof.
  intros self p p'. split; [reflexivity |].
  destruct (later_data_packet_overwrites_earlier example_environment self
              (PyFloat "1.23") (PyInt 123412341234) (PyFloat "0.5")
              (PyInt 2048) no_caches 0 {| bdSeq := 0 |}
              example_environment_accepts eq_refl)
    as (first & second & Hp & _).
  exists first. subst p' p. cbv zeta in Hp.
  split; [exact Hp |].
  injection Hp as <-. split; reflexivity.
Defined.

(** ** The device catalog *)

(** X15. [OGIDevice.data_packet] assigns its readings into the shared
    device catalog: in a process where that catalog has not been built
    yet, after [data_packet(setpoint, flow, quality, count, uptime)] the
    metric [OGI/Flow] has the value [flow] and the properties [Setpoint],
    [Quality], [Count], in this order and with their catalog tags, with
    the values [setpoint], [quality], [count]; [OGI/Uptime] has the value
    [uptime]; and a device birth packet made before or after holds the
    same metrics, the catalog values being gone. *)
Theorem device_data_packet_writes_into_the_shared_catalog
    (env : Environment) (self : OGIDevice)
    (setpoint flow quality count uptime : PyValue) (w : Caches)
    (Henv : accepts_fitting env)
    (Hfresh : ogi_metrics_cache w = None) :
  let b := OGIDevice_birth_certificate env self w in
  let p :=
    OGIDevice_data_packet env self setpoint flow quality count uptime
      (snd b) in
  let b' := OGIDevice_birth_certificate env self (snd p) in
  exists birth data birth',
    fst b = Ok birth /\ fst p = Ok data /\ fst b' = Ok birth'
    /\ stored_metrics (resolve birth (snd b)) = ogi_metrics_catalog env
    /\ stored_metrics (resolve data (snd p))
       = [("OGI/Flow",
           {| alias := "OGI/Flow"; alias_map := AliasMap.OGI_Flow;
              data_type := MetricDataType_Float env; value := flow;
              properties :=
                Some [{| prop_name := "Setpoint";
                         prop_data_type := ParameterDataType_UInt8 env;
                         prop_value := setpoint |};
                      {| prop_name := "Quality";
                         prop_data_type := ParameterDataType_Float env;
                         prop_value := quality |};
                      {| prop_name := "Count";
                         prop_data_type := ParameterDataType_UInt32 env;
                         prop_value := count |}] |});
          ("OGI/Uptime",
           {| alias := "OGI/Uptime"; alias_map := AliasMap.OGI_Uptime;
              data_type := MetricDataType_Float env; value := uptime;
              properties := None |})]
    /\ resolve birth (snd p)
       = DBirth (og_group self) (og_node self) (og_device self)
           (stored_metrics (resolve data (snd p)))
    /\ resolve birth' (snd b') = resolve birth (snd p).
Proof.
  intros b p b'. subst b' p b.
  destruct w as [wr wn wo]. cbn [ogi_metrics_cache] in Hfresh. subst wo.
  unfold OGIDevice_birth_certificate, OGIDevice_data_packet,
    OGIDBirthPacket, OGIDDataPacket, from_catalog, cache_call.
  cbn [cached ogi_metrics_cache build_catalog].
  rewrite (build_ogi_metrics_ok env Henv).
  cbn [fst snd store_catalog cached ogi_metrics_cache].
  eexists _, _, _. repeat (split; [reflexivity |]). reflexivity.
Qed.

Lemma device_data_packet_witness :
  let self := {| og_group := "tenant.location"; og_node := "edge";
                 og_device := "OGI" |} in
  let b := OGIDevice_birth_certificate example_environment self no_caches in
  let p :=
    OGIDevice_data_packet example_environment self (PyInt 1)
      (PyFloat "92.23") (PyFloat "98.9") (PyInt 1600) (PyFloat "100.0")
      (snd b) in
  ogi_metrics_cache no_caches = None
  /\ exists birth,
       fst b = Ok birth
       /\ values_of (stored_metrics (resolve birth (snd b)))
          = [("OGI/Flow", PyFloat "0.0"); ("OGI/Uptime", PyFloat "0.0")]
       /\ values_of (stored_metrics (resolve birth (snd p)))
          = [("OGI/Flow", PyFloat "92.23"); ("OGI/Uptime", PyFloat "100.0")].
Proof.
  intros self b p. split; [reflexivity |].
  destruct (device_data_packet_writes_into_the_shared_catalog
              example_environment self (PyInt 1) (PyFloat "92.23")
              (PyFloat "98.9") (PyInt 1600) (PyFloat "100.0") no_caches
              example_environment_accepts eq_refl)
    as (birth & data & birth' & Hb & _).
  exists birth. subst p b. cbv zeta in Hb.
  split; [exact Hb |].
  injection Hb as <-. split; reflexivity.
Defined.

(** ** A key that is missing *)

Lemma dict_get_set_other (d : MetricMapping) (k k' : string) (m : Metric) :
  String.eqb k' k = false ->
  dict_get (dict_set d k m) k' = dict_get d k'.
Proof.
  intro Hk. induction d as [| [k0 m0] d IH]; cbn [dict_set dict_get].
  - rewrite Hk. reflexivity.
  - destruct (String.eqb k k0) eqn:E; cbn [dict_get].
    + apply String.eqb_eq in E. subst k0. rewrite Hk. reflexivity.
    + destruct (String.eqb k' k0); [reflexivity | exact IH].
Qed.

(** X16. [EdgeComputer.data_packet] is not atomic. When the cached node
    catalog has the key [CPU/Load] but not the key [Memory/Avail], the
    call raises [KeyError] for [Memory/Avail] and returns no packet, but
    the assignment to [CPU/Load] that came first stays in the shared
    catalog. *)
Theorem data_packet_with_missing_key
    (env : Environment) (self : EdgeComputer) (cpu_load memory_avail : PyValue)
    (w : Caches) (d : MetricMapping) (m : Metric)
    (Hcached : nvidia_metrics_cache w = Some d)
    (Hload : dict_get d "CPU/Load" = Some m)
    (Havail : dict_get d "Memory/Avail" = None) :
  EdgeComputer_data_packet env self cpu_load memory_avail w
  = (Raise (KeyError "Memory/Avail"),
     store_catalog node_catalog
       (dict_set d "CPU/Load" (set_metric_value cpu_load m)) w).
Proof.
  unfold EdgeComputer_data_packet, NvidiaNDataPacket, from_catalog,
    cache_call, keep_or_new.
  cbn [cached]. rewrite Hcached. cbn [cached]. rewrite Hcached.
  assert (Ht : truthy (Some d) = true)
    by (destruct d; [discriminate Hload | reflexivity]).
  rewrite Ht. unfold assign_value at 1.
  cbn [fst snd metrics_ref look cached]. rewrite Hcached, Hload.
  unfold put. cbn [metrics_ref fst snd].
  unfold assign_value.
  cbn [fst snd metrics_ref look cached store_catalog nvidia_metrics_cache].
  rewrite (dict_get_set_other d "CPU/Load" "Memory/Avail" _ eq_refl), Havail.
  reflexivity.
Qed.

Lemma data_packet_with_missing_key_witness :
  let load := {| alias := "CPU/Load"; alias_map := AliasMap.CPU_Load;
                 data_type := 9; value := PyFloat "0.0";
                 properties := None |} in
  let w := store_catalog node_catalog [("CPU/Load", load)] no_caches in
  nvidia_metrics_cache w = Some [("CPU/Load", load)]
  /\ dict_get [("CPU/Load", load)] "CPU/Load" = Some load
  /\ dict_get [("CPU/Load", load)] "Memory/Avail" = None
  /\ EdgeComputer_data_packet example_environment
       {| ec_group := "tenant.location"; ec_node := "edge" |}
       (PyFloat "1.23") (PyInt 123412341234) w
     = (Raise (KeyError "Memory/Avail"),
        store_catalog node_catalog
          [("CPU/Load", set_metric_value (PyFloat "1.23") load)] no_caches).
Proof.
  intros load w. do 3 (split; [reflexivity |]).
  exact (data_packet_with_missing_key example_environment
           {| ec_group := "tenant.location"; ec_node := "edge" |}
           (PyFloat "1.23") (PyInt 123412341234) w [("CPU/Load", load)] load
           eq_refl eq_refl eq_refl).
Defined.

(** ** The catalogs are independent *)

Lemma cache_call_frame (env : Environment) (c c' : Catalog) (w : Caches) :
  c' <> c -> cached c' (snd (cache_call env c w)) = cached c' w.
Proof.
  intro Hc. unfold cache_call.
  destruct (cached c w); [reflexivity |].
  destruct (build_catalog env c); [| reflexivity].
  destruct c, c'; try reflexivity; exfalso; apply Hc; reflexivity.
Qed.

Lemma from_catalog_frame (env : Environment) (c c' : Catalog)
    (sh : MetricMapping -> Packet) (w : Caches) :
  c' <> c -> cached c' (snd (from_catalog env c sh w)) = cached c' w.
Proof.
  intro Hc. unfold from_catalog.
  pose proof (cache_call_frame env c c' w Hc) as H.
  destruct (cache_call env c w) as [[r | e] w']; exact H.
Qed.

Lemma from_catalog_ref (env : Environment) (c : Catalog)
    (sh : MetricMapping -> Packet) (w : Caches) (packet : BuiltPacket) :
  fst (from_catalog env c sh w) = Ok packet ->
  metrics_ref packet = shared c \/ exists d, metrics_ref packet = owned d.
Proof.
  unfold from_catalog, cache_call.
  destruct (cached c w) as [d |] eqn:E.
  - cbn [fst]. intro H. injection H as <-. cbn [metrics_ref].
    unfold keep_or_new. destruct (truthy (cached c w));
      [left; reflexivity | right; exists []; reflexivity].
  - destruct (build_catalog env c) as [d | e]; [| discriminate].
    cbn [fst]. intro H. injection H as <-. cbn [metrics_ref].
    unfold keep_or_new.
    destruct (truthy (cached c (store_catalog c d w)));
      [left; reflexivity | right; exists []; reflexivity].
Qed.

Lemma put_frame (packet : BuiltPacket) (w : Caches) (d : MetricMapping)
    (c c' : Catalog) :
  c' <> c ->
  (metrics_ref packet = shared c \/ exists d0, metrics_ref packet = owned d0) ->
  cached c' (snd (put packet w d)) = cached c' w
  /\ (metrics_ref (fst (put packet w d)) = shared c
      \/ exists d0, metrics_ref (fst (put packet w d)) = owned d0).
Proof.
  intros Hc [Hr | [d0 Hr]]; unfold put; rewrite Hr; cbn [fst snd metrics_ref].
  - split; [| left; exact Hr].
    destruct c, c'; try reflexivity; exfalso; apply Hc; reflexivity.
  - split; [reflexivity | right; exists d; reflexivity].
Qed.

Lemma assign_value_frame (k : string) (v : PyValue)
    (st : BuiltPacket * Caches) (c c' : Catalog) :
  c' <> c ->
  (metrics_ref (fst st) = shared c
   \/ exists d0, metrics_ref (fst st) = owned d0) ->
  cached c' (snd (snd (assign_value k v st))) = cached c' (snd st)
  /\ (metrics_ref (fst (snd (assign_value k v st))) = shared c
      \/ exists d0, metrics_ref (fst (snd (assign_value k v st))) = owned d0).
Proof.
  intros Hc Hr. unfold assign_value.
  destruct (dict_get (look (metrics_ref (fst st)) (snd st)) k);
    cbn [snd]; [apply put_frame; assumption | split; [reflexivity | exact Hr]].
Qed.

Lemma assign_properties_frame (k : string)
    (body : MetricProperty -> MetricProperty)
    (st : BuiltPacket * Caches) (c c' : Catalog) :
  c' <> c ->
  (metrics_ref (fst st) = shared c
   \/ exists d0, metrics_ref (fst st) = owned d0) ->
  cached c' (snd (snd (assign_properties k body st))) = cached c' (snd st)
  /\ (metrics_ref (fst (snd (assign_properties k body st))) = shared c
      \/ exists d0,
           metrics_ref (fst (snd (assign_properties k body st))) = owned d0).
Proof.
  intros Hc Hr. unfold assign_properties.
  destruct (dict_get (look (metrics_ref (fst st)) (snd st)) k) as [m |];
    [destruct (properties m) |];
    cbn [snd]; try (split; [reflexivity | exact Hr]).
  apply put_frame; assumption.
Qed.

(** X17. The three catalogs are independent: whatever the state of the
    caches and whether the call returns or raises,
    [EdgeComputer.data_packet] leaves the rebirth catalog (the one the
    NCMD packet encodes) and the device catalog as they are, and
    [OGIDevice.data_packet] leaves the rebirth catalog and the node
    catalog as they are. *)
Theorem data_packets_leave_other_catalogs
    (env : Environment) (computer : EdgeComputer) (device : OGIDevice)
    (cpu_load memory_avail setpoint flow quality count uptime : PyValue)
    (w : Caches) :
  let w1 :=
    snd (EdgeComputer_data_packet env computer cpu_load memory_avail w) in
  let w2 :=
    snd (OGIDevice_data_packet env device setpoint flow quality count
           uptime w) in
  cached rebirth_catalog w1 = cached rebirth_catalog w
  /\ cached device_catalog w1 = cached device_catalog w
  /\ cached rebirth_catalog w2 = cached rebirth_catalog w
  /\ cached node_catalog w2 = cached node_catalog w.
Proof.
  intros w1 w2. subst w1 w2.
  assert (N : forall c', c' <> node_catalog ->
      cached c'
        (snd (EdgeComputer_data_packet env computer cpu_load memory_avail w))
      = cached c' w).
  { intros c' Hc. unfold EdgeComputer_data_packet, NvidiaNDataPacket.
    pose proof (from_catalog_frame env node_catalog c'
                  (NData (ec_group computer) (ec_node computer)) w Hc) as F.
    pose proof (from_catalog_ref env node_catalog
                  (NData (ec_group computer) (ec_node computer)) w) as R.
    destruct (from_catalog env node_catalog
                (NData (ec_group computer) (ec_node computer)) w)
      as [[packet | e] w0]; [| exact F].
    cbn [fst snd] in F, R. specialize (R packet eq_refl).
    destruct (assign_value_frame "CPU/Load" cpu_load (packet, w0)
                node_catalog c' Hc R) as [F1 R1].
    cbn [snd] in F1.
    destruct (assign_value "CPU/Load" cpu_load (packet, w0))
      as [[u | e] st1]; cbn [snd] in *; [| congruence].
    destruct (assign_value_frame "Memory/Avail" memory_avail st1
                node_catalog c' Hc R1) as [F2 _].
    destruct (assign_value "Memory/Avail" memory_avail st1)
      as [[u' | e] st2]; cbn [snd] in *; congruence. }
  assert (D : forall c', c' <> device_catalog ->
      cached c'
        (snd (OGIDevice_data_packet env device setpoint flow quality count
                uptime w))
      = cached c' w).
  { intros c' Hc. unfold OGIDevice_data_packet, OGIDDataPacket.
    set (sh := DData (og_group device) (og_node device)
                 (device_id_or_default (Some (og_device device)))).
    pose proof (from_catalog_frame env device_catalog c' sh w Hc) as F.
    pose proof (from_catalog_ref env device_catalog sh w) as R.
    destruct (from_catalog env device_catalog sh w)
      as [[packet | e] w0]; [| exact F].
    cbn [fst snd] in F, R. specialize (R packet eq_refl).
    destruct (assign_value_frame "OGI/Flow" flow (packet, w0)
                device_catalog c' Hc R) as [F1 R1].
    cbn [snd] in F1.
    destruct (assign_value "OGI/Flow" flow (packet, w0))
      as [[u | e] st1]; cbn [snd] in *; [| congruence].
    destruct (assign_properties_frame "OGI/Flow"
                (assign_by_name setpoint quality count) st1
                device_catalog c' Hc R1) as [F2 R2].
    destruct (assign_properties "OGI/Flow"
                (assign_by_name setpoint quality count) st1)
      as [[u' | e] st2]; cbn [snd] in *; [| congruence].
    destruct (assign_value_frame "OGI/Uptime" uptime st2
                device_catalog c' Hc R2) as [F3 _].
    destruct (assign_value "OGI/Uptime" uptime st2)
      as [[u'' | e] st3]; cbn [snd] in *; congruence. }
  repeat split; first [apply N | apply D]; discriminate.
Qed.
